(** * vmd-agr-parser: a shallow embedding of [plot.py]

    The script reads a Grace [.agr] file written by VMD: a header of
    [@]-directives followed by ampersand-terminated blocks of [x y] lines.
    It then plots the chosen layers or exports them.

    Python values are modelled as follows.
    - [str] is [string]; the input file is its sequence of bytes, decoded
      with a single-byte codec (one byte is one character) and read with
      universal newlines, as [open(path, 'r')] does. On a file of ASCII
      characters this is what every ASCII-compatible codec gives, UTF-8
      included; on other bytes UTF-8 counts fewer characters than bytes, and
      the statements that depend on the position given to [seek] are made
      for ASCII files ([is_ascii]).
    - the calls into matplotlib and the file system that follow a successful
      [plot] ([savefig], [show], [open]) are recorded as done; their own
      failures are outside the model.
    - [float] is the primitive binary64 [float] of the kernel.
    - [collections.OrderedDict] keyed by floats is an association list in
      insertion order, looked up with the IEEE equality [PrimFloat.eqb].
    - [self.layers] is the store of [Layer] objects; [chosen_layers] yields
      references (positions in the store), so that a mutation through a
      chosen layer is a mutation of the stored object.
    - a raised exception is the [Raise] case of [result].
    - [print] appends a line to an explicit [stdout] log.

    The Python library functions the script calls but does not define
    ([shlex.split], [float], [repr] of a float) are the fields of the class
    [PyLib]; the general theorems hold for every instance. *)

From Stdlib Require Import PrimFloat FloatOps SpecFloat FloatAxioms ZArith Lia.
From Stdlib Require Import Ascii String.
From stdpp Require Import base list strings pretty.

Local Open Scope string_scope.
Local Open Scope list_scope.

(** ** Exceptions *)

Inductive exn : Type :=
| ValueError
| IndexError
| AssertionError
| UnboundLocalError.

Inductive result (A : Type) : Type :=
| Ok (a : A)
| Raise (e : exn).

Arguments Ok {A} a.
Arguments Raise {A} e.

Definition bind {A B : Type} (r : result A) (k : A -> result B) : result B :=
  match r with
  | Ok a => k a
  | Raise e => Raise e
  end.

Notation "'let*' x ':=' e 'in' k" := (bind e (fun x => k))
  (at level 10, x pattern, e at level 100, k at level 200).

Definition of_option {A : Type} (e : exn) (o : option A) : result A :=
  match o with
  | Some a => Ok a
  | None => Raise e
  end.

(** ** Python string primitives *)

Definition LF : ascii := "010"%char.
Definition CR : ascii := "013"%char.

(** [str.isspace] on the characters of a single-byte text: the ASCII
    white space, the four separators 0x1c-0x1f, NEL and NBSP. *)
Definition py_isspace (c : ascii) : bool :=
  let n := nat_of_ascii c in
  (((9 <=? n) && (n <=? 13)) || ((28 <=? n) && (n <=? 32))
   || (n =? 133) || (n =? 160))%nat.

Definition is_empty (s : string) : bool :=
  match s with
  | EmptyString => true
  | String _ _ => false
  end.

(** [s.lstrip()] *)
Fixpoint lstrip (s : string) : string :=
  match s with
  | EmptyString => EmptyString
  | String c r => if py_isspace c then lstrip r else s
  end.

(** [s.rstrip()] *)
Fixpoint rstrip (s : string) : string :=
  match s with
  | EmptyString => EmptyString
  | String c r =>
      let r' := rstrip r in
      if is_empty r' && py_isspace c then EmptyString else String c r'
  end.

(** [s.strip()] *)
Definition strip (s : string) : string := rstrip (lstrip s).

(** [s.lstrip(chars)] for a one-character [chars] *)
Fixpoint lstrip_char (a : ascii) (s : string) : string :=
  match s with
  | EmptyString => EmptyString
  | String c r => if Ascii.eqb c a then lstrip_char a r else s
  end.

(** [s.startswith(p)] *)
Definition startswith (p s : string) : bool := String.prefix p s.

(** [s.split()]: the maximal runs of non-space characters. [cur] is the run
    being read, kept as [None] between runs. *)
Fixpoint split_ws_go (cur : option string) (s : string) : list string :=
  match s with
  | EmptyString =>
      match cur with
      | Some w => [w]
      | None => []
      end
  | String c r =>
      if py_isspace c then
        match cur with
        | Some w => w :: split_ws_go None r
        | None => split_ws_go None r
        end
      else
        match cur with
        | Some w => split_ws_go (Some (w +:+ String c EmptyString)) r
        | None => split_ws_go (Some (String c EmptyString)) r
        end
  end.

Definition split_ws (s : string) : list string := split_ws_go None s.

(** The characters of [s] from offset [n] on. *)
Fixpoint drop_chars (n : nat) (s : string) : string :=
  match n, s with
  | O, _ => s
  | S n', EmptyString => EmptyString
  | S n', String _ r => drop_chars n' r
  end.

(** ** Text files

    Reading lines with universal newlines: [\n], [\r\n] and [\r] all end a
    line and are all delivered as [\n]. [cr] records that the previous byte
    was a [\r], whose following [\n] belongs to the same line ending. *)
Fixpoint readlines_go (cr : bool) (cur : string) (bytes : string) : list string :=
  match bytes with
  | EmptyString => if is_empty cur then [] else [cur]
  | String b r =>
      if Ascii.eqb b LF then
        if cr then readlines_go false cur r
        else (cur +:+ String LF EmptyString) :: readlines_go false EmptyString r
      else if Ascii.eqb b CR then
        (cur +:+ String LF EmptyString) :: readlines_go true EmptyString r
      else readlines_go false (cur +:+ String b EmptyString) r
  end.

Definition readlines (bytes : string) : list string :=
  readlines_go false EmptyString bytes.

(** An open text file: its bytes and the lines still to be delivered by
    iteration. *)
Record TextFile : Type := mkTextFile {
  file_name : string;
  content : string;
  pending : list string
}.

Definition open_file (path bytes : string) : TextFile :=
  mkTextFile path bytes (readlines bytes).

(** [f.seek(position)]: reading restarts at byte [position]. The lines it
    yields are those of the real file when the bytes from [position] on are
    ASCII characters. *)
Definition seek (position : nat) (f : TextFile) : TextFile :=
  mkTextFile (file_name f) (content f) (readlines (drop_chars position (content f))).

(** ** The Python library functions used by the script *)

Class PyLib : Type := {
  (** [shlex.split(s)]; [None] is its [ValueError] *)
  shlex_split : string -> option (list string);
  (** [float(s)]; [None] is its [ValueError] *)
  float_of_str : string -> option float;
  (** [repr(x)], which is also [str(x)] and ['%s' % x] *)
  float_repr : float -> string
}.

(** ** Layers *)

Abbreviation odict := (list (float * float)).

(** [x in d] *)
Definition od_contains (x : float) (d : odict) : bool :=
  existsb (fun kv => PrimFloat.eqb (fst kv) x) d.

(** [d[x] = y]: an existing key keeps its place and its key object. *)
Fixpoint od_set (x y : float) (d : odict) : odict :=
  match d with
  | [] => [(x, y)]
  | (k, v) :: r => if PrimFloat.eqb k x then (k, y) :: r else (k, v) :: od_set x y r
  end.

Record Layer : Type := mkLayer {
  name : string;
  data : odict
}.

(** [Layer(name)] *)
Definition new_layer (n : string) : Layer := mkLayer n [].

(** [layer.keys] and [layer.values] *)
Definition keys (l : Layer) : list float := map fst (data l).
Definition values (l : Layer) : list float := map snd (data l).

Record VmdAgrPlot : Type := mkPlot {
  title : string;
  layers : list Layer;
  restrict_to : option (list string)
}.

Definition set_title (t : string) (p : VmdAgrPlot) : VmdAgrPlot :=
  mkPlot t (layers p) (restrict_to p).

Definition set_layers (ls : list Layer) (p : VmdAgrPlot) : VmdAgrPlot :=
  mkPlot (title p) ls (restrict_to p).

(** [not self.restrict_to or layer.name in self.restrict_to] *)
Definition is_chosen (r : option (list string)) (l : Layer) : bool :=
  match r with
  | None => true
  | Some [] => true
  | Some names => existsb (String.eqb (name l)) names
  end.

(** The comprehension of [chosen_layers] over the store from position [i]
    on: the references of the layers that pass the test. *)
Fixpoint chosen_from (r : option (list string)) (i : nat) (ls : list Layer) : list nat :=
  match ls with
  | [] => []
  | l :: rest =>
      if is_chosen r l then i :: chosen_from r (S i) rest
      else chosen_from r (S i) rest
  end.

Definition chosen_layers (p : VmdAgrPlot) : list nat :=
  chosen_from (restrict_to p) 0 (layers p).

(** The layer objects behind the references. *)
Definition deref (ls : list Layer) (refs : list nat) : list Layer :=
  omap (fun i => ls !! i) refs.

Definition chosen (p : VmdAgrPlot) : list Layer :=
  deref (layers p) (chosen_layers p).

(** ** The parser *)

Section Parser.
Context `{PyLib}.

(** [values[i]] *)
Definition item (i : nat) (values : list string) : result string :=
  of_option IndexError (values !! i).

(** The body of the loop of [parse_plot_configs] after the position has been
    advanced: one directive line is tokenised and obeyed. *)
Definition run_directive (line : string) (p : VmdAgrPlot) (out : list string)
  : result (VmdAgrPlot * list string) :=
  let line := strip line in
  let* tokens := of_option ValueError (shlex_split line) in
  match tokens with
  | [] => Raise ValueError
  | command :: values =>
      let command := lstrip_char "@" command in
      if String.eqb command "title" then
        let* title := item 0 values in
        Ok (set_title title p, out)
      else
        let* is_legend :=
          (if startswith "s" command then
             let* v0 := item 0 values in Ok (String.eqb v0 "legend")
           else Ok false) in
        if is_legend then
          let* layer_name := item 1 values in
          Ok (set_layers (layers p ++ [new_layer layer_name]) p, out)
        else if String.eqb command "type" then
          let* v0 := item 0 values in
          if String.eqb v0 "xy" then Ok (p, out) else Raise AssertionError
        else
          Ok (p, out ++ ["Unrecognized command: " +:+ command])
  end.

(** The [for line in agr_file] loop of [parse_plot_configs]; it yields the
    value of [position] on leaving the loop. *)
Fixpoint parse_plot_configs_loop (lines : list string) (position : nat)
    (p : VmdAgrPlot) (out : list string)
  : result (nat * VmdAgrPlot * list string) :=
  match lines with
  | [] => Ok (position, p, out)
  | line :: rest =>
      if startswith "@" line then
        let position := position + String.length line in
        let* (p, out) := run_directive line p out in
        parse_plot_configs_loop rest position p out
      else Ok (position, p, out)
  end.

Definition parse_plot_configs (f : TextFile) (p : VmdAgrPlot) (out : list string)
  : result (TextFile * VmdAgrPlot * list string) :=
  let* (position, p, out) := parse_plot_configs_loop (pending f) 0 p out in
  Ok (seek position f, p, out).

(** [x, y = [float(c) for c in line.split()]] *)
Definition parse_point (line : string) : result (float * float) :=
  let* cs := of_option ValueError (mapM float_of_str (split_ws line)) in
  match cs with
  | [x; y] => Ok (x, y)
  | _ => Raise ValueError
  end.

(** [x in layer.data] and [layer.data[x] = y] through the reference [i]. *)
Definition layer_has (i : nat) (x : float) (ls : list Layer) : bool :=
  match ls !! i with
  | Some l => od_contains x (data l)
  | None => false
  end.

Definition layer_set (x y : float) (l : Layer) : Layer :=
  mkLayer (name l) (od_set x y (data l)).

(** The inner loop of [parse_coordinates] for the layer referenced by [i];
    it yields the lines left in the file. *)
Fixpoint read_block (i : nat) (lines : list string) (ls : list Layer)
    (out : list string)
  : result (list string * list Layer * list string) :=
  match lines with
  | [] => Ok ([], ls, out)
  | line :: rest =>
      let line := strip line in
      if String.eqb line "&" then Ok (rest, ls, out)
      else
        let* (x, y) := parse_point line in
        let out :=
          if layer_has i x ls then
            out ++ ["Data inconsistency: " +:+ float_repr x +:+ " occurs twice as x"]
          else out in
        read_block i rest (alter (layer_set x y) i ls) out
  end.

(** The outer loop of [parse_coordinates] over the chosen references. *)
Fixpoint parse_coordinates_loop (refs : list nat) (lines : list string)
    (ls : list Layer) (out : list string)
  : result (list string * list Layer * list string) :=
  match refs with
  | [] => Ok (lines, ls, out)
  | i :: refs' =>
      let* (lines, ls, out) := read_block i lines ls out in
      parse_coordinates_loop refs' lines ls out
  end.

Definition parse_coordinates (f : TextFile) (p : VmdAgrPlot) (out : list string)
  : result (TextFile * VmdAgrPlot * list string) :=
  let* (lines, ls, out) :=
    parse_coordinates_loop (chosen_layers p) (pending f) (layers p) out in
  Ok (mkTextFile (file_name f) (content f) lines, set_layers ls p, out).

Definition load (f : TextFile) (p : VmdAgrPlot) (out : list string)
  : result (TextFile * VmdAgrPlot * list string) :=
  let* (f, p, out) := parse_plot_configs f p out in
  parse_coordinates f p out.

(** [VmdAgrPlot(path, restrict_to)] *)
Definition init (f : TextFile) (restrict : option (list string)) (out : list string)
  : result (TextFile * VmdAgrPlot * list string) :=
  load f (mkPlot EmptyString [] restrict) out.

End Parser.

(** ** Export to csv *)

(** A csv file, as the table [csv.DictWriter] writes: the header row and
    the data rows, every cell a string. *)
Record CsvFile : Type := mkCsv {
  fieldnames : list string;
  rows : list (list string)
}.

(** A row dictionary [{key: float, ...}], built by successive insertion. *)
Abbreviation rowdict := (list (string * float)).

Fixpoint rd_set (k : string) (v : float) (d : rowdict) : rowdict :=
  match d with
  | [] => [(k, v)]
  | (k', v') :: r => if String.eqb k' k then (k', v) :: r else (k', v') :: rd_set k v r
  end.

Fixpoint rd_get (k : string) (d : rowdict) : option float :=
  match d with
  | [] => None
  | (k', v) :: r => if String.eqb k' k then Some v else rd_get k r
  end.

Definition mem_str (k : string) (ks : list string) : bool :=
  existsb (String.eqb k) ks.

Section Presentation.
Context `{PyLib}.

(** [DictWriter._dict_to_list] with [extrasaction='raise'] and [restval=''],
    followed by the writer's rendering of each field. *)
Definition dict_to_list (fields : list string) (d : rowdict) : result (list string) :=
  let wrong_fields := List.filter (fun k => negb (mem_str k fields)) (map fst d) in
  match wrong_fields with
  | _ :: _ => Raise ValueError
  | [] =>
      Ok (map (fun key =>
                 match rd_get key d with
                 | Some v => float_repr v
                 | None => EmptyString
                 end) fields)
  end.

(** The rows written for the items of one layer. *)
Fixpoint write_items (fields : list string) (n : string) (items : odict)
  : result (list (list string)) :=
  match items with
  | [] => Ok []
  | (x, y) :: rest =>
      let* row := dict_to_list fields (rd_set (n +:+ ".y") y (rd_set (n +:+ ".x") x [])) in
      let* more := write_items fields n rest in
      Ok (row :: more)
  end.

Fixpoint write_layers (fields : list string) (ls : list Layer)
  : result (list (list string)) :=
  match ls with
  | [] => Ok []
  | l :: rest =>
      let* here := write_items fields (name l) (data l) in
      let* more := write_layers fields rest in
      Ok (here ++ more)
  end.

Definition csv_headers (ls : list Layer) : list string :=
  flat_map (fun l => [name l +:+ ".x"; name l +:+ ".y"]) ls.

(** [to_csv]: the table written under [path]. *)
Definition to_csv (p : VmdAgrPlot) : result CsvFile :=
  let headers := csv_headers (chosen p) in
  let* body := write_layers headers (chosen p) in
  Ok (mkCsv headers body).

End Presentation.

(** ** Plotting *)

(** One call of [plt.plot(xs, ys, label=...)]. *)
Record Line : Type := mkLine {
  line_xs : list float;
  line_ys : list float;
  line_label : string
}.

(** What pyplot has accumulated when [plot] returns it. *)
Record Figure : Type := mkFigure {
  fig_lines : list Line;
  fig_title : string;
  fig_axes : option (string * string);
  fig_legend : option (float * float)
}.

Definition labels_given (labels : option (list string)) : bool :=
  match labels with
  | Some (_ :: _) => true
  | _ => false
  end.

(** The [for i, layer in enumerate(self.chosen_layers)] loop of [plot]. *)
Fixpoint plot_layers (scale : float * float) (labels : option (list string))
    (i : nat) (ls : list Layer) : result (list Line) :=
  match ls with
  | [] => Ok []
  | layer :: rest =>
      let* label :=
        (if labels_given labels then item i (default [] labels)
         else Ok (name layer)) in
      let* more := plot_layers scale labels (S i) rest in
      Ok (mkLine (map (fun x => (fst scale * x)%float) (keys layer))
                 (map (fun y => (snd scale * y)%float) (values layer))
                 label :: more)
  end.

Definition matplotlib_missing : string :=
  "Matplotlib not found. Matplotlib is required for plotting. "
  +:+ "Use --do_not_plot to run this tool without plot generation. "
  +:+ "Note that without plotting only export to csv is possible.".

Definition labels_mismatch : string :=
  "There should be exactly as many labels "
  +:+ "given as there are variables chosen.".

(** [plot]: [None] is the returned [False]; [matplotlib] tells whether the
    import of [matplotlib.pyplot] succeeds. *)
Definition plot (matplotlib : bool) (p : VmdAgrPlot) (scale : float * float)
    (axes_labels : option (string * string)) (legend_pos : option (float * float))
    (labels : option (list string)) (out : list string)
  : result (option Figure * list string) :=
  if negb matplotlib then Ok (None, out ++ [matplotlib_missing])
  else if labels_given labels
          && negb (length (default [] labels) =? length (chosen_layers p))%nat
  then Ok (None, out ++ [labels_mismatch])
  else
    let* lines := plot_layers scale labels 0 (chosen p) in
    Ok (Some (mkFigure lines (title p) axes_labels legend_pos), out).

(** ** The command line *)

Inductive format : Type := csv | svg | png | jpg.

Definition format_name (f : format) : string :=
  match f with
  | csv => "csv"
  | svg => "svg"
  | png => "png"
  | jpg => "jpg"
  end.

(** The namespace [argparse] returns. *)
Record Args : Type := mkArgs {
  input_file : TextFile;
  do_not_plot : bool;
  arg_title : option string;
  axis_x : string;
  axis_y : string;
  arg_restrict_to : option (list string);
  export : option format;
  scale : float * float;
  legend_position : float * float;
  arg_labels : option (list string)
}.

Inductive Artifact : Type :=
| CsvArtifact (t : CsvFile)
| ImageArtifact (f : Figure).

(** What a run of [main] leaves behind. *)
Record World : Type := mkWorld {
  stdout : list string;
  files : list (string * Artifact);
  shown : list Figure
}.

(** [os.path.basename] *)
Fixpoint basename_go (cur s : string) : string :=
  match s with
  | EmptyString => cur
  | String c r =>
      if Ascii.eqb c "/" then basename_go EmptyString r
      else basename_go (cur +:+ String c EmptyString) r
  end.

Definition basename (s : string) : string := basename_go EmptyString s.

(** Truth of an optional argument whose values are all true when given. *)
Definition is_set {A : Type} (o : option A) : bool :=
  match o with
  | Some _ => true
  | None => false
  end.

Section Main.
Context `{PyLib}.

(** [main] from the export step on; [fig] is the local [plot], unbound when
    no plot was generated. [savefig], [show] and the opening of the csv file
    are recorded as done: their own failures are outside the model. *)
Definition export_and_show (args : Args) (agr_plot : VmdAgrPlot)
    (fig : option Figure) (out : list string) : result World :=
  let* (written, out) :=
    match export args with
    | Some fmt =>
        let filename := basename (file_name (input_file args)) in
        let export_filename := filename +:+ "." +:+ format_name fmt in
        let* artifact :=
          match fmt with
          | csv => let* t := to_csv agr_plot in Ok (CsvArtifact t)
          | _ => let* f := of_option UnboundLocalError fig in Ok (ImageArtifact f)
          end in
        let layers_count := length (chosen_layers agr_plot) in
        Ok ([(export_filename, artifact)],
            out ++ ["Exported " +:+ pretty layers_count +:+ " layer(s) to "
                    +:+ export_filename +:+ "."])
    | None => Ok ([], out)
    end in
  if negb (do_not_plot args) then
    let* f := of_option UnboundLocalError fig in
    Ok (mkWorld out written [f])
  else Ok (mkWorld out written []).

Definition main (matplotlib : bool) (args : Args) : result World :=
  let* (_, agr_plot, out) := init (input_file args) (arg_restrict_to args) [] in
  let agr_plot :=
    match arg_title args with
    | Some (String _ _ as t) => set_title t agr_plot
    | _ => agr_plot
    end in
  if negb (do_not_plot args) || is_set (export args) then
    let* (fig, out) :=
      plot matplotlib agr_plot (scale args) (Some (axis_x args, axis_y args))
           (Some (legend_position args)) (arg_labels args) out in
    match fig with
    | None => Ok (mkWorld (out ++ ["Plot generation failed"]) [] [])
    | Some f => export_and_show args agr_plot (Some f) out
    end
  else export_and_show args agr_plot None out.

End Main.

(** ** A reference instance of the library functions

    Used to run the script on concrete files. [split] follows the token
    reader of [shlex] in POSIX mode with [whitespace_split] set and no
    comment characters, which is what [shlex.split] runs. [float_of_decimal]
    is [float] on plain decimal literals of at most fifteen digits, and
    [repr_exact] prints the exact decimal value of a float, which is what
    [repr] prints for the integer-valued floats below 1e16. *)
Module RefLib.

Inductive lex_state : Type :=
| InSpace
| InWord
| InQuote (q : ascii)
| InEscape (back : option ascii).

Definition shlex_whitespace (c : ascii) : bool :=
  Ascii.eqb c " " || Ascii.eqb c "009" || Ascii.eqb c CR || Ascii.eqb c LF.

Definition shlex_quote (c : ascii) : bool :=
  Ascii.eqb c "'" || Ascii.eqb c "034".

Definition shlex_escape (c : ascii) : bool := Ascii.eqb c "\".

Definition add_char (tok : string) (c : ascii) : string :=
  tok +:+ String c EmptyString.

Definition emit (tok : string) (quoted : bool) (more : option (list string))
  : option (list string) :=
  if negb (is_empty tok) || quoted then option_map (cons tok) more else more.

Fixpoint split_go (st : lex_state) (tok : string) (quoted : bool) (s : string)
  : option (list string) :=
  match s with
  | EmptyString =>
      match st with
      | InSpace => Some []
      | InWord => emit tok quoted (Some [])
      | InQuote _ => None
      | InEscape _ => None
      end
  | String c r =>
      match st with
      | InSpace =>
          if shlex_whitespace c then split_go InSpace EmptyString false r
          else if shlex_escape c then split_go (InEscape None) EmptyString false r
          else if shlex_quote c then split_go (InQuote c) EmptyString false r
          else split_go InWord (String c EmptyString) false r
      | InQuote q =>
          if Ascii.eqb c q then split_go InWord tok true r
          else if shlex_escape c && Ascii.eqb q "034" then
            split_go (InEscape (Some q)) tok true r
          else split_go (InQuote q) (add_char tok c) true r
      | InEscape back =>
          match back with
          | Some q =>
              let tok :=
                if negb (shlex_escape c) && negb (Ascii.eqb c q)
                then add_char tok "\" else tok in
              split_go (InQuote q) (add_char tok c) quoted r
          | None => split_go InWord (add_char tok c) quoted r
          end
      | InWord =>
          if shlex_whitespace c then
            emit tok quoted (split_go InSpace EmptyString false r)
          else if shlex_quote c then split_go (InQuote c) tok quoted r
          else if shlex_escape c then split_go (InEscape None) tok quoted r
          else split_go InWord (add_char tok c) quoted r
      end
  end.

Definition split (s : string) : option (list string) :=
  split_go InSpace EmptyString false s.

Definition digit_value (c : ascii) : option float :=
  let n := nat_of_ascii c in
  if ((48 <=? n) && (n <=? 57))%nat
  then Some (Nat.iter (n - 48) (fun d => d + 1)%float 0%float)
  else None.

Fixpoint digits_go (acc : float) (s : string) : option float :=
  match s with
  | EmptyString => Some acc
  | String c r =>
      match digit_value c with
      | Some d => digits_go (acc * 10 + d)%float r
      | None => None
      end
  end.

(** The text before the first dot, and the text after it if there is one. *)
Fixpoint split_dot (s : string) : string * option string :=
  match s with
  | EmptyString => (EmptyString, None)
  | String c r =>
      if Ascii.eqb c "." then (EmptyString, Some r)
      else let (a, b) := split_dot r in (String c a, b)
  end.

Definition pow10 (n : nat) : float := Nat.iter n (fun p => p * 10)%float 1%float.

(** [[-]digits[.digits]] with at most fifteen digits: the digits are an
    exact integer and the power of ten is exact, so the quotient is the
    correctly rounded value. *)
Definition float_of_decimal (s : string) : option float :=
  let (negative, body) :=
    match s with
    | String "-" r => (true, r)
    | _ => (false, s)
    end in
  let (whole, frac) := split_dot body in
  let frac := default EmptyString frac in
  let digits := whole +:+ frac in
  if is_empty digits || (15 <? String.length digits)%nat then None
  else
    match digits_go 0%float digits with
    | Some n =>
        let v := (n / pow10 (String.length frac))%float in
        Some (if negative then (- v)%float else v)
    | None => None
    end.

Fixpoint zeros (n : nat) : string :=
  match n with
  | O => EmptyString
  | S n' => String "0" (zeros n')
  end.

Fixpoint rstrip_zeros (s : string) : string :=
  match s with
  | EmptyString => EmptyString
  | String c r =>
      let r' := rstrip_zeros r in
      if is_empty r' && Ascii.eqb c "0" then EmptyString else String c r'
  end.

Definition fraction_digits (num : Z) (k : nat) : string :=
  let ds := pretty (num * 5 ^ Z.of_nat k)%Z in
  let padded := zeros (k - String.length ds) +:+ ds in
  let short := rstrip_zeros padded in
  if is_empty short then "0" else short.

Definition repr_exact (x : float) : string :=
  match Prim2SF x with
  | S754_zero false => "0.0"
  | S754_zero true => "-0.0"
  | S754_infinity false => "inf"
  | S754_infinity true => "-inf"
  | S754_nan => "nan"
  | S754_finite s m e =>
      let sign := if s then "-" else EmptyString in
      if (0 <=? e)%Z then sign +:+ pretty (Z.pos m * 2 ^ e)%Z +:+ ".0"
      else
        let d := (2 ^ (- e))%Z in
        sign +:+ pretty (Z.pos m / d)%Z +:+ "."
        +:+ fraction_digits (Z.pos m mod d)%Z (Z.to_nat (- e))
  end.

#[export] Instance ref_lib : PyLib := {
  shlex_split := split;
  float_of_str := float_of_decimal;
  float_repr := repr_exact
}.

End RefLib.

(** ** Building test files *)

(** The lines of a file, each followed by the line ending [eol]. *)
Fixpoint unlines (eol : string) (ls : list string) : string :=
  match ls with
  | [] => EmptyString
  | l :: rest => l +:+ eol +:+ unlines eol rest
  end.

Definition lf : string := String LF EmptyString.
Definition crlf : string := String CR (String LF EmptyString).

(** ** Notions of the specification *)

(** The maximal leading run of directive lines. *)
Fixpoint header_lines (lines : list string) : list string :=
  match lines with
  | [] => []
  | l :: rest => if startswith "@" l then l :: header_lines rest else []
  end.

(** The lines from the first one that is not a directive on. *)
Fixpoint after_header (lines : list string) : list string :=
  match lines with
  | [] => []
  | l :: rest => if startswith "@" l then after_header rest else lines
  end.

(** The name declared by a legend directive [s<N> legend <string>]. *)
Definition legend_of_line `{PyLib} (line : string) : option string :=
  match shlex_split (strip line) with
  | Some (command :: keyword :: layer_name :: _) =>
      if startswith "s" (lstrip_char "@" command) && String.eqb keyword "legend"
      then Some layer_name else None
  | _ => None
  end.

(** The names declared by one line: one or none. *)
Definition option_names (o : option string) : list string :=
  match o with
  | Some n => [n]
  | None => []
  end.

(** A data line is well formed when it is the terminator or holds a point. *)
Definition well_formed `{PyLib} (line : string) : Prop :=
  strip line = "&" \/ exists xy, parse_point (strip line) = Ok xy.

(** The lines left once the block at the head of the stream is passed. *)
Fixpoint skip_block (lines : list string) : list string :=
  match lines with
  | [] => []
  | l :: rest => if String.eqb (strip l) "&" then rest else skip_block rest
  end.

(** The stream after [n] blocks. *)
Fixpoint skip_blocks (n : nat) (lines : list string) : list string :=
  match n with
  | O => lines
  | S n' => skip_blocks n' (skip_block lines)
  end.

(** No carriage return among the bytes: every line ends with a line feed. *)
Fixpoint no_cr (bytes : string) : bool :=
  match bytes with
  | EmptyString => true
  | String b r => negb (Ascii.eqb b CR) && no_cr r
  end.

(** The reader the round trip is stated with, following the words of the
    specification: the numeric columns of the series at position [i] of the
    exported table are read back, a row with an empty x cell holding no
    point of that series. *)
Fixpoint spec_reparse_rows `{PyLib} (cx cy : nat) (rs : list (list string))
  : option (list (float * float)) :=
  match rs with
  | [] => Some []
  | row :: rest =>
      match row !! cx, row !! cy with
      | Some sx, Some sy =>
          if is_empty sx then spec_reparse_rows cx cy rest
          else
            match float_of_str sx, float_of_str sy, spec_reparse_rows cx cy rest with
            | Some x, Some y, Some more => Some ((x, y) :: more)
            | _, _, _ => None
            end
      | _, _ => None
      end
  end.

Definition spec_reparse_series `{PyLib} (i : nat) (t : CsvFile)
  : option (list (float * float)) :=
  spec_reparse_rows (2 * i) (2 * i + 1) (rows t).

(** A float survives the export when its printed form is not empty and
    reads back as the same float. *)
Definition survives `{PyLib} (v : float) : Prop :=
  float_repr v <> EmptyString /\ float_of_str (float_repr v) = Some v.

(** ** Sample runs *)

(** Three declared layers, one point in each block. *)
Definition abc_file : TextFile :=
  open_file "run.agr"
    (unlines lf ["@s0 legend A"; "@s1 legend B"; "@s2 legend C";
                 "0 1"; "&"; "0 2"; "&"; "0 3"; "&"]).

(** One declared layer, in a file whose lines end with [\r\n]. *)
Definition crlf_file : TextFile :=
  open_file "run.agr" (unlines crlf ["@s0 legend A"; "0 1"; "&"]).

(** [plot.py run.agr --do_not_plot --export <fmt>] *)
Definition export_only (fmt : format) : Args :=
  mkArgs abc_file true None "frame" "y" None (Some fmt)
         (1, 1)%float (1, 1)%float None.

(** Two declared layers and a stream that ends inside the first block. *)
Definition short_file : TextFile :=
  open_file "run.agr" (unlines lf ["@s0 legend A"; "@s1 legend B"; "0 1"]).

(** The same command line with another [--scale]. *)
Definition set_scale (sc : float * float) (a : Args) : Args :=
  mkArgs (input_file a) (do_not_plot a) (arg_title a) (axis_x a) (axis_y a)
         (arg_restrict_to a) (export a) sc (legend_position a) (arg_labels a).

(** [plot.py run.agr --do_not_plot --export png --labels a b] *)
Definition two_labels : Args :=
  mkArgs abc_file true None "frame" "y" None (Some png)
         (1, 1)%float (1, 1)%float (Some ["a"; "b"]).

(** A document with the single point (4, 5). *)
Definition one_point : VmdAgrPlot :=
  mkPlot "T" [mkLayer "A" [(4, 5)%float]] None.

(** Two layers declared under the same name. *)
Definition dup_file : TextFile :=
  open_file "run.agr"
    (unlines lf ["@s0 legend A"; "@s1 legend A"; "0 1"; "&"; "2 3"; "&"]).

(** The cell under the column [key] in the row written for the point
    (x, y) of the layer named [n]. *)
Definition cell_of `{PyLib} (n : string) (x y : float) (key : string) : string :=
  if String.eqb (n +:+ ".x") key then float_repr x
  else if String.eqb (n +:+ ".y") key then float_repr y
  else EmptyString.

(** The rows written for one layer under the columns [fields]. *)
Definition rows_of `{PyLib} (fields : list string) (l : Layer) : list (list string) :=
  map (fun xy => map (cell_of (name l) (fst xy) (snd xy)) fields) (data l).

(** The points of all the layers named [n], in order. *)
Definition points_named (n : string) (ls : list Layer) : odict :=
  flat_map (fun l => if String.eqb (name l) n then data l else []) ls.

(** [abc_file] once loaded without a restriction. *)
Definition abc_done : TextFile :=
  mkTextFile "run.agr" (content abc_file) [].

Definition abc_plot : VmdAgrPlot :=
  mkPlot EmptyString
    [mkLayer "A" [(0, 1)%float]; mkLayer "B" [(0, 2)%float];
     mkLayer "C" [(0, 3)%float]] None.

(** ** Further notions used to describe the data phase *)

(** The lines of the block at the head of the stream, terminator excluded. *)
Fixpoint block_lines (lines : list string) : list string :=
  match lines with
  | [] => []
  | l :: rest => if String.eqb (strip l) "&" then [] else l :: block_lines rest
  end.

(** The dictionary that the block at the head of the stream leaves when its
    points are stored one after the other into [d]. *)
Fixpoint fill_block `{PyLib} (d : odict) (lines : list string) : odict :=
  match lines with
  | [] => d
  | l :: rest =>
      if String.eqb (strip l) "&" then d
      else
        match parse_point (strip l) with
        | Ok (x, y) => fill_block (od_set x y d) rest
        | Raise _ => d
        end
  end.

(** No key of the dictionary equals, as a float, a key stored after it. *)
Definition distinct_keys (d : odict) : Prop :=
  forall a b ka kb,
    a < b -> map fst d !! a = Some ka -> map fst d !! b = Some kb ->
    PrimFloat.eqb ka kb = false.

(** The value of a [title] directive. *)
Definition title_of_line `{PyLib} (line : string) : option string :=
  match shlex_split (strip line) with
  | Some (command :: t :: _) =>
      if String.eqb (lstrip_char "@" command) "title" then Some t else None
  | _ => None
  end.

(** The value of a [type] directive. *)
Definition type_of_line `{PyLib} (line : string) : option string :=
  match shlex_split (strip line) with
  | Some (command :: v :: _) =>
      if String.eqb (lstrip_char "@" command) "type" then Some v else None
  | _ => None
  end.

(** [abc_file] after the header phase, and the document at that point when
    the load is restricted to B. *)
Definition abc_after_header : TextFile :=
  mkTextFile "run.agr" (content abc_file)
    ["0 1" +:+ lf; "&" +:+ lf; "0 2" +:+ lf; "&" +:+ lf; "0 3" +:+ lf; "&" +:+ lf].

Definition abc_declared : VmdAgrPlot :=
  mkPlot EmptyString [mkLayer "A" []; mkLayer "B" []; mkLayer "C" []] (Some ["B"]).

(** [abc_file] and its document once loaded with the restriction B. *)
Definition abc_restricted_done : TextFile :=
  mkTextFile "run.agr" (content abc_file)
    ["0 2" +:+ lf; "&" +:+ lf; "0 3" +:+ lf; "&" +:+ lf].

Definition abc_restricted : VmdAgrPlot :=
  mkPlot EmptyString
    [mkLayer "A" []; mkLayer "B" [(0, 1)%float]; mkLayer "C" []] (Some ["B"]).

(** A directive line that lacks the argument its command reads: a lone
    [title], [type] or [s...] command, or [s... legend] without a name. *)
Definition lacks_argument `{PyLib} (line : string) : bool :=
  match shlex_split (strip line) with
  | Some [command] =>
      let c := lstrip_char "@" command in
      String.eqb c "title" || startswith "s" c || String.eqb c "type"
  | Some [command; keyword] =>
      startswith "s" (lstrip_char "@" command) && String.eqb keyword "legend"
  | _ => false
  end.

(** Every byte is an ASCII character: the text has as many characters as
    bytes, under UTF-8 as under any codec that extends ASCII. *)
Fixpoint is_ascii (bytes : string) : bool :=
  match bytes with
  | EmptyString => true
  | String b r => (nat_of_ascii b <? 128)%nat && is_ascii r
  end.

(** Two declared layers and a file cut off inside its second data line. *)
Definition cut_file : TextFile :=
  open_file "run.agr"
    (unlines lf ["@s0 legend A"; "@s1 legend B"; "0 1"] +:+ "2").

(** [short_file] after the header phase, and its document at that point. *)
Definition short_after_header : TextFile :=
  mkTextFile "run.agr" (content short_file) ["0 1" +:+ lf].

Definition short_declared : VmdAgrPlot :=
  mkPlot EmptyString [mkLayer "A" []; mkLayer "B" []] None.

(** [plot.py run.agr] on the file with [\r\n] line endings. *)
Definition crlf_args : Args :=
  mkArgs crlf_file false None "frame" "y" None None
         (1, 1)%float (1, 1)%float None.

(** * Properties *)

(** ** The selection filter *)

Lemma chosen_from_range r ls i j :
  j ∈ chosen_from r i ls → i ≤ j < i + length ls.
Proof.
  revert i. induction ls as [|l ls IH]; intros i Hj; simpl in *.
  - inversion Hj.
  - destruct (is_chosen r l).
    + apply elem_of_cons in Hj as [->|Hj]; [lia|].
      apply IH in Hj. lia.
    + apply IH in Hj. lia.
Qed.

Lemma chosen_from_NoDup r ls i : NoDup (chosen_from r i ls).
Proof.
  revert i. induction ls as [|l ls IH]; intros i; simpl.
  - constructor.
  - destruct (is_chosen r l); [|apply IH].
    constructor; [|apply IH].
    intros Hin. apply chosen_from_range in Hin. lia.
Qed.

Lemma deref_chosen_from r pre ls :
  deref (pre ++ ls) (chosen_from r (length pre) ls) = List.filter (is_chosen r) ls.
Proof.
  revert pre. induction ls as [|l ls IH]; intros pre; simpl; [done|].
  assert (Hstep : deref (pre ++ l :: ls) (chosen_from r (S (length pre)) ls)
                  = List.filter (is_chosen r) ls).
  { specialize (IH (pre ++ [l])).
    rewrite <- app_assoc in IH. simpl in IH.
    rewrite length_app in IH. simpl in IH.
    replace (length pre + 1) with (S (length pre)) in IH by lia. exact IH. }
  destruct (is_chosen r l); [|exact Hstep].
  rewrite <- Hstep. unfold deref.
  change (omap ?f (?i :: ?js)) with
    (match f i with Some y => y :: omap f js | None => omap f js end).
  cbv beta. by rewrite list_lookup_middle.
Qed.

Lemma chosen_filter p :
  chosen p = List.filter (is_chosen (restrict_to p)) (layers p).
Proof. apply (deref_chosen_from (restrict_to p) [] (layers p)). Qed.

Lemma chosen_from_all r ls i :
  (forall l, is_chosen r l = true) -> chosen_from r i ls = seq i (length ls).
Proof.
  intros Hall. revert i. induction ls as [|l ls IH]; intros i; simpl; [done|].
  by rewrite Hall, IH.
Qed.

Lemma filter_all {A} (f : A -> bool) (l : list A) :
  (forall x, f x = true) -> List.filter f l = l.
Proof.
  intros Hall. induction l as [|x l IH]; simpl; [done|]. by rewrite Hall, IH.
Qed.

Lemma lookup_map {A B} (f : A -> B) (l : list A) (k : nat) :
  map f l !! k = option_map f (l !! k).
Proof.
  revert k. induction l as [|a l IH]; intros [|k]; simpl; auto.
Qed.

(** C9: an empty restriction set selects every declared layer, exactly as
    when no restriction is given. *)
Theorem empty_restriction_selects_all (t : string) (ls : list Layer) :
  chosen (mkPlot t ls (Some [])) = ls
  /\ chosen_layers (mkPlot t ls (Some [])) = seq 0 (length ls)
  /\ chosen_layers (mkPlot t ls (Some [])) = chosen_layers (mkPlot t ls None).
Proof.
  split; [|split].
  - rewrite chosen_filter. simpl. by apply filter_all.
  - unfold chosen_layers. simpl. by apply chosen_from_all.
  - unfold chosen_layers. simpl. by rewrite !chosen_from_all.
Qed.

(** ** A restricted load *)

(** C1: with layers A, B, C declared and the restriction [B], the data phase
    reads one block, and it is the first block of the file, the one written
    for A: B receives the point (0, 1) and its own block (0, 2) stays unread
    in the file. *)
Theorem restricted_layer_reads_first_block :
  exists f p,
    init (H := RefLib.ref_lib) abc_file (Some ["B"]) [] = Ok (f, p, [])
    /\ layers p = [mkLayer "A" []; mkLayer "B" [(0, 1)%float]; mkLayer "C" []]
    /\ pending f = ["0 2" +:+ lf; "&" +:+ lf; "0 3" +:+ lf; "&" +:+ lf].
Proof. eexists _, _. split; [vm_compute; reflexivity|]. split; reflexivity. Qed.

(** ** Duplicate x values *)

Section Blocks.
Context `{PyLib}.

Lemma alter_to_insert {A} (f : A -> A) (i : nat) (l : list A) (x : A) :
  l !! i = Some x -> alter f i l = <[i := f x]> l.
Proof.
  intros Hx. rewrite list_insert_alter.
  apply list_alter_ext; [|done]. intros y Hy. congruence.
Qed.

(** C4: when a block holds two lines with the same x followed by the
    terminator, the layer ends with the single point of the first x mapped
    to the later y, one warning is printed, and the block is read without an
    error; the lines [0 1], [0 2], [&] give x=0 mapped to y=2. *)
Theorem duplicate_x_last_write_wins (i : nat) (ls : list Layer) (l : Layer)
    (l1 l2 amp : string) (rest out : list string) (x x' y1 y2 : float) :
  ls !! i = Some l ->
  data l = [] ->
  strip l1 <> "&" ->
  strip l2 <> "&" ->
  strip amp = "&" ->
  parse_point (strip l1) = Ok (x, y1) ->
  parse_point (strip l2) = Ok (x', y2) ->
  PrimFloat.eqb x x' = true ->
  read_block i (l1 :: l2 :: amp :: rest) ls out
  = Ok (rest, <[i := mkLayer (name l) [(x, y2)]]> ls,
        out ++ ["Data inconsistency: " +:+ float_repr x' +:+ " occurs twice as x"]).
Proof.
  intros Hl Hd H1 H2 Ha P1 P2 Hx.
  apply String.eqb_neq in H1, H2.
  cbn [read_block]. rewrite H1, P1. cbn [bind].
  assert (Hl1 : alter (layer_set x y1) i ls !! i = Some (mkLayer (name l) [(x, y1)])).
  { rewrite list_lookup_alter_eq, Hl. cbn [fmap option_fmap option_map].
    unfold layer_set. by rewrite Hd. }
  rewrite H2, P2. cbn [bind].
  rewrite Ha. cbn [String.eqb Ascii.eqb Bool.eqb].
  unfold layer_has. rewrite Hl1, Hl, Hd. cbn [od_contains existsb data fst].
  rewrite Hx. cbn [orb].
  rewrite list_alter_alter_eq.
  rewrite (alter_to_insert _ _ _ _ Hl).
  unfold compose, layer_set. cbn [name data]. rewrite Hd. cbn [od_set].
  by rewrite Hx.
Qed.

End Blocks.

Lemma duplicate_x_last_write_wins_witness :
  read_block (H := RefLib.ref_lib) 0
    ["0 1" +:+ lf; "0 2" +:+ lf; "&" +:+ lf] [new_layer "A"] []
  = Ok ([], [mkLayer "A" [(0, 2)%float]],
        ["Data inconsistency: 0.0 occurs twice as x"]).
Proof.
  apply (duplicate_x_last_write_wins (H := RefLib.ref_lib) 0 [new_layer "A"]
           (new_layer "A") ("0 1" +:+ lf) ("0 2" +:+ lf) ("&" +:+ lf) [] []
           0%float 0%float 1%float 2%float).
  - reflexivity.
  - reflexivity.
  - vm_compute. discriminate.
  - vm_compute. discriminate.
  - reflexivity.
  - reflexivity.
  - reflexivity.
  - reflexivity.
Defined.

(** ** Running without matplotlib *)

(** C2: without matplotlib, [--do_not_plot --export csv] still calls [plot],
    which fails, and [main] returns before the export: no csv file is
    written. The image formats end the same way. *)
Theorem export_without_matplotlib_writes_nothing (fmt : format) :
  main (H := RefLib.ref_lib) false (export_only fmt)
  = Ok (mkWorld [matplotlib_missing; "Plot generation failed"] [] []).
Proof. destruct fmt; vm_compute; reflexivity. Qed.

(** ** The header phase and the declared layers *)

Section Header.
Context `{PyLib}.

Lemma run_directive_layers line p out p' out' :
  run_directive line p out = Ok (p', out') ->
  layers p' = layers p ++ map new_layer (option_names (legend_of_line line))
  /\ restrict_to p' = restrict_to p.
Proof.
  unfold run_directive, legend_of_line, item.
  destruct (shlex_split (strip line)) as [[|command values]|]; simpl; try discriminate.
  destruct (String.eqb (lstrip_char "@" command) "title") eqn:Et.
  - apply String.eqb_eq in Et. rewrite Et.
    destruct values as [|v0 [|v1 vs]]; simpl; try discriminate;
      intros [= <- <-]; simpl; by rewrite app_nil_r.
  - destruct (startswith "s" (lstrip_char "@" command)) eqn:Es.
    + destruct values as [|v0 vs]; simpl; try discriminate.
      destruct (String.eqb v0 "legend") eqn:El; simpl.
      * destruct vs as [|v1 vs]; simpl; try discriminate.
        intros [= <- <-]. done.
      * destruct (String.eqb (lstrip_char "@" command) "type"); simpl.
        -- destruct (String.eqb v0 "xy"); try discriminate.
           intros [= <- <-]. destruct vs; simpl; by rewrite app_nil_r.
        -- intros [= <- <-]. destruct vs; simpl; by rewrite app_nil_r.
    + simpl. destruct (String.eqb (lstrip_char "@" command) "type"); simpl.
      * destruct values as [|v0 vs]; simpl; try discriminate.
        destruct (String.eqb v0 "xy"); try discriminate.
        intros [= <- <-]. destruct vs; simpl; by rewrite app_nil_r.
      * intros [= <- <-]. destruct values as [|v0 [|v1 vs]]; simpl; by rewrite app_nil_r.
Qed.

Lemma header_loop_layers lines position p out position' p' out' :
  parse_plot_configs_loop lines position p out = Ok (position', p', out') ->
  layers p' = layers p ++ map new_layer (omap legend_of_line (header_lines lines))
  /\ restrict_to p' = restrict_to p.
Proof.
  revert position p out.
  induction lines as [|line lines IH]; intros position p out; simpl.
  - intros [= <- <- <-]. by rewrite app_nil_r.
  - destruct (startswith "@" line).
    + destruct (run_directive line p out) as [[p1 out1]|] eqn:Hd; simpl; [|discriminate].
      intros Hloop. apply IH in Hloop as [Hl Hr].
      apply run_directive_layers in Hd as [Hl1 Hr1].
      split; [|congruence].
      rewrite Hl, Hl1, <- app_assoc. f_equal.
      destruct (legend_of_line line); done.
    + intros [= <- <- <-]. by rewrite app_nil_r.
Qed.

Lemma map_name_alter f i (ls : list Layer) :
  (forall l, name (f l) = name l) -> map name (alter f i ls) = map name ls.
Proof.
  intros Hf. revert i. induction ls as [|l ls IH]; intros [|i]; simpl; try done.
  - by rewrite Hf.
  - f_equal. apply IH.
Qed.

Lemma read_block_names i lines ls out lines' ls' out' :
  read_block i lines ls out = Ok (lines', ls', out') ->
  map name ls' = map name ls.
Proof.
  revert ls out. induction lines as [|line lines IH]; intros ls out; simpl.
  - by intros [= <- <- <-].
  - destruct (String.eqb (strip line) "&"); [by intros [= <- <- <-]|].
    destruct (parse_point (strip line)) as [[x y]|]; simpl; [|discriminate].
    intros Hb. apply IH in Hb. rewrite Hb. by apply map_name_alter.
Qed.

Lemma coordinates_loop_names refs lines ls out lines' ls' out' :
  parse_coordinates_loop refs lines ls out = Ok (lines', ls', out') ->
  map name ls' = map name ls.
Proof.
  revert lines ls out. induction refs as [|i refs IH]; intros lines ls out; simpl.
  - by intros [= <- <- <-].
  - destruct (read_block i lines ls out) as [[[lines1 ls1] out1]|] eqn:Hb; simpl;
      [|discriminate].
    intros Hl. apply IH in Hl. apply read_block_names in Hb. congruence.
Qed.

Lemma length_omap_filter {A B} (f : A -> option B) (l : list A) :
  length (omap f l) = length (List.filter (fun x => is_set (f x)) l).
Proof.
  induction l as [|x l IH]; [done|].
  change (omap f (x :: l)) with
    (match f x with Some y => y :: omap f l | None => omap f l end).
  simpl. destruct (f x); simpl; auto.
Qed.

Lemma map_name_new_layer (ns : list string) : map name (map new_layer ns) = ns.
Proof. induction ns as [|n ns IH]; simpl; [done|]. by rewrite IH. Qed.

(** C5: after a successful load the layers are, in order, the names given
    by the legend directives of the header, one layer per directive. *)
Theorem layers_follow_legend_directives (path bytes : string)
    (restrict : option (list string)) (out : list string)
    (f : TextFile) (p : VmdAgrPlot) (out' : list string) :
  init (open_file path bytes) restrict out = Ok (f, p, out') ->
  map name (layers p) = omap legend_of_line (header_lines (readlines bytes))
  /\ length (layers p)
     = length (List.filter (fun l => is_set (legend_of_line l))
                           (header_lines (readlines bytes))).
Proof.
  unfold init, load, parse_plot_configs, parse_coordinates.
  cbn [pending open_file].
  destruct (parse_plot_configs_loop (readlines bytes) 0
              (mkPlot EmptyString [] restrict) out)
    as [[[position p0] out0]|] eqn:Hh; cbn [bind]; [|discriminate].
  destruct (parse_coordinates_loop (chosen_layers p0)
              (pending (seek position (open_file path bytes))) (layers p0) out0)
    as [[[lines1 ls1] out1]|] eqn:Hc; cbn [bind]; [|discriminate].
  intros [= <- <- <-].
  apply header_loop_layers in Hh as [Hl _]. simpl in Hl.
  apply coordinates_loop_names in Hc.
  assert (Hn : map name (layers (set_layers ls1 p0))
               = omap legend_of_line (header_lines (readlines bytes))).
  { cbn [set_layers layers]. rewrite Hc, Hl. apply map_name_new_layer. }
  split; [exact Hn|].
  rewrite <- length_omap_filter, <- Hn. by rewrite length_map.
Qed.

End Header.

Lemma layers_follow_legend_directives_witness :
  map name [mkLayer "A" []; mkLayer "B" [(0, 1)%float]; mkLayer "C" []]
  = omap (legend_of_line (H := RefLib.ref_lib))
         (header_lines (readlines (content abc_file)))
  /\ 3 = length (List.filter
                   (fun l => is_set (legend_of_line (H := RefLib.ref_lib) l))
                   (header_lines (readlines (content abc_file)))).
Proof.
  apply (layers_follow_legend_directives (H := RefLib.ref_lib)
           "run.agr" (content abc_file) (Some ["B"]) []
           (mkTextFile "run.agr" (content abc_file)
              ["0 2" +:+ lf; "&" +:+ lf; "0 3" +:+ lf; "&" +:+ lf])
           (mkPlot EmptyString
              [mkLayer "A" []; mkLayer "B" [(0, 1)%float]; mkLayer "C" []]
              (Some ["B"]))
           []).
  vm_compute. reflexivity.
Defined.

(** ** The data phase on a stream that ends early *)

Section Data.
Context `{PyLib}.

Lemma read_block_total i lines ls out :
  Forall well_formed lines ->
  exists ls' out',
    read_block i lines ls out = Ok (skip_block lines, ls', out')
    /\ (forall j, j <> i -> ls' !! j = ls !! j)
    /\ (lines = [] -> ls' = ls).
Proof.
  intros Hwf. revert ls out.
  induction Hwf as [|line lines Hline _ IH]; intros ls out; simpl.
  - by exists ls, out.
  - destruct (String.eqb (strip line) "&") eqn:Ea.
    + exists ls, out. split; [done|]. split; [done|]. discriminate.
    + destruct Hline as [Hamp|[[x y] Hp]].
      { apply String.eqb_neq in Ea. done. }
      rewrite Hp. cbn [bind].
      edestruct IH as (ls' & out' & Hr & Hframe & _).
      exists ls', out'. split; [exact Hr|]. split; [|discriminate].
      intros j Hj. rewrite Hframe by done.
      by apply list_lookup_alter_ne.
Qed.

Lemma skip_block_Forall (P : string -> Prop) lines :
  Forall P lines -> Forall P (skip_block lines).
Proof.
  induction 1 as [|line lines Hl Hls IH]; simpl; [constructor|].
  by destruct (String.eqb (strip line) "&").
Qed.

Lemma coordinates_loop_total refs lines ls out :
  Forall well_formed lines ->
  NoDup refs ->
  exists lines' ls' out',
    parse_coordinates_loop refs lines ls out = Ok (lines', ls', out')
    /\ (forall i, i ∉ refs -> ls' !! i = ls !! i)
    /\ (forall j i, refs !! j = Some i -> skip_blocks j lines = [] ->
         ls' !! i = ls !! i).
Proof.
  intros Hwf Hnd. revert lines ls out Hwf.
  induction Hnd as [|i refs Hi Hnd IH]; intros lines ls out Hwf; simpl.
  - exists lines, ls, out. split; [done|]. split; [done|]. intros j i Hj. inversion Hj.
  - destruct (read_block_total i lines ls out Hwf) as (ls1 & out1 & Hb & Hframe & Hnil).
    rewrite Hb. cbn [bind].
    destruct (IH (skip_block lines) ls1 out1 (skip_block_Forall _ _ Hwf))
      as (lines' & ls' & out' & Hl & Hout & Hin).
    exists lines', ls', out'. split; [exact Hl|]. split.
    + intros k Hk. apply not_elem_of_cons in Hk as [Hne Hk].
      rewrite Hout by done. by apply Hframe.
    + intros [|j] k Hj Hs; simpl in Hj, Hs.
      * injection Hj as <-. subst lines.
        rewrite Hout by done. by rewrite Hnil.
      * rewrite (Hin j k Hj Hs). apply Hframe.
        intros ->. apply Hi. by eapply list_elem_of_lookup_2.
Qed.

Lemma is_chosen_name r l l' : name l = name l' -> is_chosen r l = is_chosen r l'.
Proof. intros Hn. unfold is_chosen. by rewrite Hn. Qed.

Lemma chosen_from_names r i ls ls' :
  map name ls = map name ls' -> chosen_from r i ls = chosen_from r i ls'.
Proof.
  revert i ls'. induction ls as [|l ls IH]; intros i [|l' ls'] Hn; simpl in *;
    try done.
  injection Hn as Hl Hls.
  rewrite (is_chosen_name r l l' Hl), (IH (S i) ls' Hls). done.
Qed.

Lemma new_layers_empty (ns : list string) :
  Forall (fun l => data l = []) (map new_layer ns).
Proof. induction ns; simpl; constructor; done. Qed.

(** C10, as amended: when every line left in the stream is the terminator or
    a well-formed point line, and the layers hold no point yet (as after the
    header phase), the data phase ends without an error and every chosen
    layer reached after the stream has ended still has no point. *)
Theorem exhausted_stream_leaves_layers_empty (f0 : TextFile) (p0 : VmdAgrPlot)
    (out0 : list string) :
  Forall well_formed (pending f0) ->
  Forall (fun l => data l = []) (layers p0) ->
  exists f p out',
    parse_coordinates f0 p0 out0 = Ok (f, p, out')
    /\ chosen_layers p = chosen_layers p0
    /\ forall j i,
         chosen_layers p !! j = Some i ->
         skip_blocks j (pending f0) = [] ->
         exists l, layers p !! i = Some l /\ data l = [].
Proof.
  intros Hwf Hempty. unfold parse_coordinates.
  destruct (coordinates_loop_total (chosen_layers p0) (pending f0) (layers p0) out0
              Hwf (chosen_from_NoDup _ _ _))
    as (lines' & ls' & out' & Hl & _ & Hin).
  rewrite Hl. cbn [bind]. eexists _, _, _. split; [reflexivity|].
  assert (Hnames : map name ls' = map name (layers p0))
    by (eapply coordinates_loop_names; exact Hl).
  assert (Hch : chosen_layers (set_layers ls' p0) = chosen_layers p0).
  { unfold chosen_layers. cbn [set_layers layers restrict_to].
    by apply chosen_from_names. }
  split; [exact Hch|].
  intros j i Hj Hs. rewrite Hch in Hj. cbn [set_layers layers].
  rewrite (Hin j i Hj Hs).
  assert (Hi : i < length (layers p0)).
  { apply list_elem_of_lookup_2, chosen_from_range in Hj. lia. }
  apply lookup_lt_is_Some_2 in Hi as [l Hlk]. exists l. split; [done|].
  by eapply (proj1 (Forall_lookup _ _) Hempty).
Qed.

End Data.

Lemma exhausted_stream_leaves_layers_empty_witness :
  exists f p out',
    parse_coordinates (H := RefLib.ref_lib) short_after_header short_declared []
    = Ok (f, p, out')
    /\ chosen_layers p = chosen_layers short_declared
    /\ forall j i,
         chosen_layers p !! j = Some i ->
         skip_blocks j (pending short_after_header) = [] ->
         exists l, layers p !! i = Some l /\ data l = [].
Proof.
  apply (exhausted_stream_leaves_layers_empty (H := RefLib.ref_lib)
           short_after_header short_declared []).
  - constructor; [|constructor]. right. eexists. vm_compute. reflexivity.
  - repeat constructor.
Defined.

(** C10, as stated, fails: in a file cut off inside a data line the stream
    ends while the block of A is being read, so that no line is left for B,
    and the unfinished line makes the data phase, and the load, raise
    [ValueError]. *)
Lemma truncated_line_aborts_data_phase :
  exists f0 p0,
    parse_plot_configs (H := RefLib.ref_lib) cut_file (mkPlot EmptyString [] None) []
    = Ok (f0, p0, [])
    /\ pending f0 = ["0 1" +:+ lf; "2"]
    /\ chosen_layers p0 = [0; 1]
    /\ skip_blocks 1 (pending f0) = []
    /\ parse_coordinates (H := RefLib.ref_lib) f0 p0 [] = Raise ValueError
    /\ init (H := RefLib.ref_lib) cut_file None [] = Raise ValueError.
Proof.
  eexists _, _. split; [vm_compute; reflexivity|].
  split; [reflexivity|]. split; [reflexivity|].
  split; [vm_compute; reflexivity|].
  split; vm_compute; reflexivity.
Qed.

(** ** Export to csv and back *)

Section Csv.
Context `{PyLib}.

Lemma length_append (a b : string) :
  String.length (a +:+ b) = String.length a + String.length b.
Proof. induction a as [|c a IH]; simpl; [done|]. by rewrite IH. Qed.

Lemma append_nil (a : string) : EmptyString +:+ a = a.
Proof. reflexivity. Qed.

Lemma append_cons (c : ascii) (a b : string) :
  String c a +:+ b = String c (a +:+ b).
Proof. reflexivity. Qed.

Lemma append_eq_inv (n m a b : string) :
  String.length a = String.length b -> n +:+ a = m +:+ b -> n = m /\ a = b.
Proof.
  intros Hlen. revert m. induction n as [|c n IH]; intros [|d m] Heq;
    rewrite ?append_nil, ?append_cons in Heq.
  - done.
  - exfalso. rewrite Heq in Hlen. cbn [String.length] in Hlen.
    rewrite length_append in Hlen. lia.
  - exfalso. rewrite <- Heq in Hlen. cbn [String.length] in Hlen.
    rewrite length_append in Hlen. lia.
  - injection Heq as -> Heq. apply IH in Heq as [-> ->]. done.
Qed.

Lemma eqb_same_suffix (n m s : string) :
  String.eqb (n +:+ s) (m +:+ s) = String.eqb n m.
Proof.
  destruct (String.eqb n m) eqn:E.
  - apply String.eqb_eq in E as ->. apply String.eqb_refl.
  - apply String.eqb_neq. apply String.eqb_neq in E.
    intros Heq. apply append_eq_inv in Heq as [Hn _]; done.
Qed.

Lemma eqb_x_y (n m : string) : String.eqb (n +:+ ".x") (m +:+ ".y") = false.
Proof.
  apply String.eqb_neq. intros Heq.
  apply append_eq_inv in Heq as [_ Hs]; [discriminate|done].
Qed.

Lemma eqb_y_x (n m : string) : String.eqb (n +:+ ".y") (m +:+ ".x") = false.
Proof.
  apply String.eqb_neq. intros Heq.
  apply append_eq_inv in Heq as [_ Hs]; [discriminate|done].
Qed.

Lemma dict_to_list_row fields n x y :
  mem_str (n +:+ ".x") fields = true ->
  mem_str (n +:+ ".y") fields = true ->
  dict_to_list fields (rd_set (n +:+ ".y") y (rd_set (n +:+ ".x") x []))
  = Ok (map (cell_of n x y) fields).
Proof.
  intros Hx Hy. unfold dict_to_list. cbn [rd_set]. rewrite eqb_x_y.
  cbn [map fst List.filter]. rewrite Hx, Hy. cbn [negb].
  f_equal. apply map_ext. intros key. unfold cell_of. cbn [rd_get].
  destruct (String.eqb (n +:+ ".x") key); [done|].
  by destruct (String.eqb (n +:+ ".y") key).
Qed.

Lemma write_items_rows fields n items :
  mem_str (n +:+ ".x") fields = true ->
  mem_str (n +:+ ".y") fields = true ->
  write_items fields n items
  = Ok (map (fun xy => map (cell_of n (fst xy) (snd xy)) fields) items).
Proof.
  intros Hx Hy. induction items as [|[x y] items IH]; [done|].
  cbn [write_items map fst snd].
  rewrite (dict_to_list_row fields n x y Hx Hy). cbn [bind].
  rewrite IH. done.
Qed.

Lemma write_layers_rows fields ls :
  (forall l, In l ls ->
     mem_str (name l +:+ ".x") fields = true
     /\ mem_str (name l +:+ ".y") fields = true) ->
  write_layers fields ls = Ok (flat_map (rows_of fields) ls).
Proof.
  induction ls as [|l ls IH]; intros Hmem; [done|].
  cbn [write_layers flat_map].
  destruct (Hmem l (or_introl eq_refl)) as [Hx Hy].
  rewrite (write_items_rows fields (name l) (data l) Hx Hy). cbn [bind].
  rewrite IH by (intros l' Hl'; apply Hmem; by right). done.
Qed.

Lemma headers_mem ls l :
  In l ls ->
  mem_str (name l +:+ ".x") (csv_headers ls) = true
  /\ mem_str (name l +:+ ".y") (csv_headers ls) = true.
Proof.
  intros Hl. unfold mem_str, csv_headers.
  split; apply existsb_exists; eexists; (split; [|apply String.eqb_refl]);
    apply in_flat_map; exists l; simpl; auto.
Qed.

Lemma to_csv_total p :
  to_csv p = Ok (mkCsv (csv_headers (chosen p))
                       (flat_map (rows_of (csv_headers (chosen p))) (chosen p))).
Proof.
  unfold to_csv. rewrite write_layers_rows; [done|]. apply headers_mem.
Qed.

Lemma headers_lookup ls i l :
  ls !! i = Some l ->
  csv_headers ls !! (2 * i) = Some (name l +:+ ".x")
  /\ csv_headers ls !! (2 * i + 1) = Some (name l +:+ ".y").
Proof.
  revert i. induction ls as [|l0 ls IH]; intros [|i] Hi; simpl in Hi; try done.
  - injection Hi as ->. done.
  - apply IH in Hi as [Hx Hy].
    replace (2 * S i) with (S (S (2 * i))) by lia.
    replace (S (S (2 * i)) + 1) with (S (S (2 * i + 1))) by lia. done.
Qed.

Lemma cells_of_row fields cx cy ni n x y :
  fields !! cx = Some (ni +:+ ".x") ->
  fields !! cy = Some (ni +:+ ".y") ->
  map (cell_of n x y) fields !! cx
  = Some (if String.eqb n ni then float_repr x else EmptyString)
  /\ map (cell_of n x y) fields !! cy
     = Some (if String.eqb n ni then float_repr y else EmptyString).
Proof.
  intros Hx Hy. rewrite !lookup_map, Hx, Hy. unfold cell_of. cbn [option_map].
  rewrite !eqb_same_suffix, eqb_x_y, eqb_y_x.
  by destruct (String.eqb n ni).
Qed.

Lemma reparse_items fields cx cy ni n items rest :
  fields !! cx = Some (ni +:+ ".x") ->
  fields !! cy = Some (ni +:+ ".y") ->
  (forall x y, In (x, y) items -> survives x /\ survives y) ->
  spec_reparse_rows cx cy
    (map (fun xy => map (cell_of n (fst xy) (snd xy)) fields) items ++ rest)
  = if String.eqb n ni
    then option_map (app items) (spec_reparse_rows cx cy rest)
    else spec_reparse_rows cx cy rest.
Proof.
  intros Hx Hy. induction items as [|[x y] items IH]; intros Hs.
  - simpl. destruct (String.eqb n ni); [|done].
    by destruct (spec_reparse_rows cx cy rest).
  - cbn [map app spec_reparse_rows fst snd].
    destruct (cells_of_row fields cx cy ni n x y Hx Hy) as [-> ->].
    rewrite IH by (intros x0 y0 Hin; apply Hs; by right).
    destruct (String.eqb n ni); [|done].
    destruct (Hs x y (or_introl eq_refl)) as [[Hnx Hrx] [_ Hry]].
    assert (is_empty (float_repr x) = false) as ->
      by (destruct (float_repr x); done).
    rewrite Hrx, Hry.
    by destruct (spec_reparse_rows cx cy rest).
Qed.

Lemma reparse_layers fields cx cy ni ls :
  fields !! cx = Some (ni +:+ ".x") ->
  fields !! cy = Some (ni +:+ ".y") ->
  (forall l x y, In l ls -> In (x, y) (data l) -> survives x /\ survives y) ->
  spec_reparse_rows cx cy (flat_map (rows_of fields) ls) = Some (points_named ni ls).
Proof.
  intros Hx Hy. induction ls as [|l ls IH]; intros Hs; [done|].
  cbn [flat_map]. unfold rows_of at 1, points_named. cbn [flat_map].
  rewrite (reparse_items fields cx cy ni (name l) (data l) _ Hx Hy)
    by (intros x y Hin; apply (Hs l); [by left|done]).
  fold (points_named ni ls).
  rewrite IH by (intros l' x y Hl'; apply Hs; by right).
  by destruct (String.eqb (name l) ni).
Qed.

Lemma points_named_absent n ls :
  ~ In n (map name ls) -> points_named n ls = [].
Proof.
  induction ls as [|l ls IH]; intros Hn; [done|].
  unfold points_named. cbn [flat_map]. fold (points_named n ls).
  rewrite IH by (intros Hin; apply Hn; by right).
  destruct (String.eqb (name l) n) eqn:E; [|done].
  apply String.eqb_eq in E. exfalso. apply Hn. by left.
Qed.

Lemma points_named_unique ls i l :
  List.NoDup (map name ls) -> ls !! i = Some l -> points_named (name l) ls = data l.
Proof.
  revert i. induction ls as [|l0 ls IH]; intros [|i] Hnd Hi; simpl in Hi; try done;
    inversion Hnd as [|? ? Hnotin Hnd']; subst;
    unfold points_named; cbn [flat_map]; fold (points_named (name l) ls).
  - injection Hi as ->. rewrite String.eqb_refl.
    rewrite points_named_absent by done. by rewrite app_nil_r.
  - rewrite (IH i Hnd' Hi).
    destruct (String.eqb (name l0) (name l)) eqn:E; [|done].
    apply String.eqb_eq in E. exfalso. apply Hnotin. rewrite E.
    apply in_map. apply list_elem_of_In. by eapply list_elem_of_lookup_2.
Qed.

(** C6, as amended: when the chosen layers have pairwise distinct names and
    their floats survive printing, the exported table read back column pair
    by column pair gives, for each chosen layer, exactly its points in
    order. *)
Theorem csv_round_trip_distinct_names (p : VmdAgrPlot) :
  List.NoDup (map name (chosen p)) ->
  (forall l x y, In l (chosen p) -> In (x, y) (data l) -> survives x /\ survives y) ->
  exists t,
    to_csv p = Ok t
    /\ forall i l, chosen p !! i = Some l -> spec_reparse_series i t = Some (data l).
Proof.
  intros Hnd Hs. eexists. split; [apply to_csv_total|].
  intros i l Hi. unfold spec_reparse_series. cbn [rows].
  destruct (headers_lookup (chosen p) i l Hi) as [Hx Hy].
  rewrite (reparse_layers _ _ _ (name l) (chosen p) Hx Hy Hs).
  f_equal. by eapply points_named_unique.
Qed.

End Csv.

Lemma csv_round_trip_distinct_names_witness :
  exists t,
    to_csv (H := RefLib.ref_lib) abc_plot = Ok t
    /\ forall i l,
         chosen abc_plot !! i = Some l ->
         spec_reparse_series (H := RefLib.ref_lib) i t = Some (data l).
Proof.
  apply (csv_round_trip_distinct_names (H := RefLib.ref_lib) abc_plot).
  - vm_compute. repeat constructor; simpl; intuition discriminate.
  - intros l x y Hl Hxy. vm_compute in Hl.
    destruct Hl as [<-|[<-|[<-|[]]]]; vm_compute in Hxy;
      destruct Hxy as [[= <- <-]|[]];
      (split; split; vm_compute; (discriminate || reflexivity)).
Defined.

(** C6, as stated, fails: two layers declared under the same name share
    their two columns, so every row fills the columns of both and the first
    layer reads back the points of both. *)
Lemma csv_round_trip_fails_on_duplicate_names :
  exists f p out t l,
    init (H := RefLib.ref_lib) dup_file None [] = Ok (f, p, out)
    /\ to_csv (H := RefLib.ref_lib) p = Ok t
    /\ chosen p !! 0 = Some l
    /\ data l = [(0, 1)%float]
    /\ Forall (survives (H := RefLib.ref_lib)) [0; 1; 2; 3]%float
    /\ spec_reparse_series (H := RefLib.ref_lib) 0 t
       = Some [(0, 1)%float; (2, 3)%float]
    /\ spec_reparse_series (H := RefLib.ref_lib) 0 t <> Some (data l).
Proof.
  eexists _, _, _, _, _.
  split; [vm_compute; reflexivity|].
  split; [vm_compute; reflexivity|].
  split; [vm_compute; reflexivity|].
  split; [reflexivity|].
  split; [repeat constructor; vm_compute; (discriminate || reflexivity)|].
  split; [vm_compute; reflexivity|].
  vm_compute. discriminate.
Qed.

(** ** Plot generation *)

Section Plot.
Context `{PyLib}.

Lemma plot_label_mismatch matplotlib p sc ax lg (ls : list string) out :
  ls <> [] ->
  length ls <> length (chosen_layers p) ->
  exists msg, plot matplotlib p sc ax lg (Some ls) out = Ok (None, out ++ [msg]).
Proof.
  intros Hne Hlen. unfold plot.
  destruct matplotlib; cbn [negb]; [|by eexists].
  destruct ls as [|l ls]; [done|].
  change (default [] (Some (l :: ls))) with (l :: ls). cbn [labels_given andb].
  apply Nat.eqb_neq in Hlen. rewrite Hlen. cbn [negb]. by eexists.
Qed.

(** C8: when labels are given and their number differs from the number of
    chosen layers, [plot] prints a diagnostic and returns its failure value;
    [main], when it generates a plot, then prints [Plot generation failed]
    and ends without writing or showing anything. *)
Theorem label_count_mismatch_is_handled (matplotlib : bool) (args : Args)
    (ls : list string) (f : TextFile) (p : VmdAgrPlot) (out : list string) :
  init (input_file args) (arg_restrict_to args) [] = Ok (f, p, out) ->
  arg_labels args = Some ls ->
  ls <> [] ->
  length ls <> length (chosen_layers p) ->
  (forall sc ax lg o,
     exists msg, plot matplotlib p sc ax lg (Some ls) o = Ok (None, o ++ [msg]))
  /\ (negb (do_not_plot args) || is_set (export args) = true ->
      exists msg,
        main matplotlib args
        = Ok (mkWorld ((out ++ [msg]) ++ ["Plot generation failed"]) [] [])).
Proof.
  intros Hinit Hlabels Hne Hlen. split.
  - intros sc ax lg o. by apply plot_label_mismatch.
  - intros Hwant. unfold main. rewrite Hinit. cbn [bind]. rewrite Hwant, Hlabels.
    match goal with
    | |- context [plot matplotlib ?q ?sc ?ax ?lg (Some ls) out] =>
        destruct (plot_label_mismatch matplotlib q sc ax lg ls out Hne) as [msg Hp]
    end.
    { destruct (arg_title args) as [[|c t]|]; exact Hlen. }
    rewrite Hp. cbn [bind]. by exists msg.
Qed.

Lemma plot_layers_points sc labels i0 ls lines :
  plot_layers sc labels i0 ls = Ok lines ->
  forall i layer k x y,
    ls !! i = Some layer ->
    data layer !! k = Some (x, y) ->
    exists ln,
      lines !! i = Some ln
      /\ line_xs ln !! k = Some (fst sc * x)%float
      /\ line_ys ln !! k = Some (snd sc * y)%float.
Proof.
  revert i0 lines. induction ls as [|l ls IH]; intros i0 lines; simpl.
  - intros _ i layer k x y Hi. inversion Hi.
  - destruct (if labels_given labels then item i0 (default [] labels) else Ok (name l))
      as [label|]; cbn [bind]; [|discriminate].
    destruct (plot_layers sc labels (S i0) ls) as [more|] eqn:Hm; cbn [bind];
      [|discriminate].
    intros [= <-] [|i] layer k x y Hi Hk; simpl in Hi.
    + injection Hi as <-. eexists. split; [reflexivity|]. cbn [line_xs line_ys].
      unfold keys, values.
      by rewrite !lookup_map, Hk.
    + by eapply (IH (S i0) more).
Qed.

Lemma plot_layers_scale_free sc sc' labels i0 ls lines :
  plot_layers sc labels i0 ls = Ok lines ->
  exists lines', plot_layers sc' labels i0 ls = Ok lines'.
Proof.
  revert i0 lines. induction ls as [|l ls IH]; intros i0 lines; simpl.
  - by eexists.
  - destruct (if labels_given labels then item i0 (default [] labels) else Ok (name l))
      as [label|]; cbn [bind]; [|discriminate].
    destruct (plot_layers sc labels (S i0) ls) as [more|] eqn:Hm; cbn [bind];
      [|discriminate].
    intros _. destruct (IH _ _ Hm) as [more' ->]. cbn [bind]. by eexists.
Qed.

Lemma plot_scale_free matplotlib p sc sc' ax lg labels out fig out' :
  plot matplotlib p sc ax lg labels out = Ok (fig, out') ->
  exists fig',
    plot matplotlib p sc' ax lg labels out = Ok (fig', out')
    /\ (fig = None <-> fig' = None).
Proof.
  unfold plot. destruct (negb matplotlib).
  { intros [= <- <-]. by eexists. }
  destruct (labels_given labels
            && negb (length (default [] labels) =? length (chosen_layers p))%nat).
  { intros [= <- <-]. by eexists. }
  destruct (plot_layers sc labels 0 (chosen p)) as [lines|] eqn:Hl; cbn [bind];
    [|discriminate].
  intros [= <- <-]. destruct (plot_layers_scale_free sc sc' _ _ _ _ Hl) as [lines' ->].
  cbn [bind]. eexists. split; [reflexivity|]. split; discriminate.
Qed.

Lemma csv_row_of_point p i l k x y :
  chosen p !! i = Some l ->
  data l !! k = Some (x, y) ->
  exists t row,
    to_csv p = Ok t
    /\ In row (rows t)
    /\ row !! (2 * i) = Some (float_repr x)
    /\ row !! (2 * i + 1) = Some (float_repr y).
Proof.
  intros Hi Hk. eexists _, (map (cell_of (name l) x y) (csv_headers (chosen p))).
  split; [apply to_csv_total|]. cbn [rows]. split.
  - apply in_flat_map. exists l. split.
    + apply list_elem_of_In. by eapply list_elem_of_lookup_2.
    + unfold rows_of.
      apply (in_map (fun xy => map (cell_of (name l) (fst xy) (snd xy))
                                   (csv_headers (chosen p))) (data l) (x, y)).
      apply list_elem_of_In. by eapply list_elem_of_lookup_2.
  - destruct (headers_lookup (chosen p) i l Hi) as [Hx Hy].
    destruct (cells_of_row _ _ _ (name l) (name l) x y Hx Hy) as [-> ->].
    by rewrite String.eqb_refl.
Qed.

(** C7: every point (x, y) of a chosen layer is plotted at
    (sx * x, sy * y); scale (2, 3) puts the point (4, 5) at (8, 15). The
    csv file that [main] writes is the same whatever scale is given, and its
    row for a point holds the printed x and y themselves. *)
Theorem scale_applies_to_chart_not_csv :
  (forall matplotlib p sc ax lg labels out fig out' i layer k x y,
     plot matplotlib p sc ax lg labels out = Ok (Some fig, out') ->
     chosen p !! i = Some layer ->
     data layer !! k = Some (x, y) ->
     exists ln,
       fig_lines fig !! i = Some ln
       /\ line_xs ln !! k = Some (fst sc * x)%float
       /\ line_ys ln !! k = Some (snd sc * y)%float)
  /\ (forall matplotlib args sc w,
       export args = Some csv ->
       main matplotlib args = Ok w ->
       exists w',
         main matplotlib (set_scale sc args) = Ok w' /\ files w' = files w)
  /\ (forall p i l k x y,
       chosen p !! i = Some l ->
       data l !! k = Some (x, y) ->
       exists t row,
         to_csv p = Ok t
         /\ In row (rows t)
         /\ row !! (2 * i) = Some (float_repr x)
         /\ row !! (2 * i + 1) = Some (float_repr y)).
Proof.
  split; [|split; [|apply csv_row_of_point]].
  - intros matplotlib p sc ax lg labels out fig out' i layer k x y Hp Hi Hk.
    unfold plot in Hp. destruct (negb matplotlib); [discriminate|].
    destruct (labels_given labels
              && negb (length (default [] labels) =? length (chosen_layers p))%nat);
      [discriminate|].
    destruct (plot_layers sc labels 0 (chosen p)) as [lines|] eqn:Hl; cbn [bind] in Hp;
      [|discriminate].
    injection Hp as <- <-. cbn [fig_lines].
    by eapply plot_layers_points.
  - intros matplotlib args sc w Hcsv. unfold main.
    cbn [set_scale input_file arg_restrict_to arg_title do_not_plot export
         scale axis_x axis_y legend_position arg_labels].
    destruct (init (input_file args) (arg_restrict_to args) [])
      as [[[f p] out]|]; cbn [bind]; [|discriminate].
    rewrite Hcsv. cbn [is_set]. rewrite orb_true_r.
    match goal with
    | |- context [plot matplotlib ?q (scale args) ?ax ?lg ?lb out] =>
        destruct (plot matplotlib q (scale args) ax lg lb out) as [[fig out1]|] eqn:Hp;
        cbn [bind]; [|discriminate];
        destruct (plot_scale_free matplotlib q (scale args) sc ax lg lb out fig out1 Hp)
          as (fig' & -> & Hnone)
    end.
    cbn [bind].
    destruct fig as [fg|], fig' as [fg'|];
      try (exfalso; destruct Hnone as [H1 H2]; (by discriminate (H1 eq_refl))
                                               || (by discriminate (H2 eq_refl))).
    + unfold export_and_show.
      cbn [set_scale input_file arg_restrict_to arg_title do_not_plot export
           scale axis_x axis_y legend_position arg_labels].
      rewrite Hcsv.
      match goal with
      | |- context [to_csv ?q] => destruct (to_csv q) as [t|]; cbn [bind]
      end; [|discriminate].
      destruct (negb (do_not_plot args)); cbn [of_option bind];
        intros [= <-]; by eexists.
    + intros [= <-]. by eexists.
Qed.

End Plot.

Lemma label_count_mismatch_is_handled_witness :
  (forall sc ax lg o,
     exists msg, plot true abc_plot sc ax lg (Some ["a"; "b"]) o = Ok (None, o ++ [msg]))
  /\ exists msg,
       main (H := RefLib.ref_lib) true two_labels
       = Ok (mkWorld (([] ++ [msg]) ++ ["Plot generation failed"]) [] []).
Proof.
  destruct (label_count_mismatch_is_handled (H := RefLib.ref_lib) true two_labels
              ["a"; "b"] abc_done abc_plot []) as [Hplot Hmain].
  - vm_compute. reflexivity.
  - reflexivity.
  - discriminate.
  - vm_compute. discriminate.
  - split; [exact Hplot|]. apply Hmain. reflexivity.
Defined.

Lemma scale_applies_to_chart_not_csv_witness :
  (exists ln,
     fig_lines (mkFigure [mkLine [8%float] [15%float] "A"] "T" None None) !! 0 = Some ln
     /\ line_xs ln !! 0 = Some 8%float
     /\ line_ys ln !! 0 = Some 15%float)
  /\ exists w,
       main (H := RefLib.ref_lib) true (export_only csv) = Ok w
       /\ exists w',
            main (H := RefLib.ref_lib) true (set_scale (2, 3)%float (export_only csv))
            = Ok w'
            /\ files w' = files w.
Proof.
  split.
  - exact (proj1 (scale_applies_to_chart_not_csv (H := RefLib.ref_lib))
             true one_point (2, 3)%float None None None []
             (mkFigure [mkLine [8%float] [15%float] "A"] "T" None None) []
             0 (mkLayer "A" [(4, 5)%float]) 0 4%float 5%float
             eq_refl eq_refl eq_refl).
  - eexists. split; [vm_compute; reflexivity|].
    apply (proj1 (proj2 (scale_applies_to_chart_not_csv (H := RefLib.ref_lib)))
             true (export_only csv) (2, 3)%float).
    + reflexivity.
    + vm_compute. reflexivity.
Defined.

(** ** The boundary between header and data *)

Section Boundary.
Context `{PyLib}.

Lemma drop_chars_add (n k : nat) (s : string) :
  drop_chars k (drop_chars n s) = drop_chars (n + k) s.
Proof.
  revert s. induction n as [|n IH]; intros s; [done|].
  destruct s as [|c s]; simpl; [by destruct k|]. apply IH.
Qed.

Lemma no_cr_drop (n : nat) (s : string) :
  no_cr s = true -> no_cr (drop_chars n s) = true.
Proof.
  revert s. induction n as [|n IH]; intros s Hs; [done|].
  destruct s as [|c s]; simpl in *; [done|].
  apply andb_true_iff in Hs as [_ Hs]. by apply IH.
Qed.

Lemma readlines_go_first (bytes cur l : string) (rest : list string) :
  no_cr bytes = true ->
  readlines_go false cur bytes = l :: rest ->
  exists k,
    String.length l = String.length cur + k
    /\ readlines (drop_chars k bytes) = rest.
Proof.
  revert cur. induction bytes as [|b r IH]; intros cur Hcr Hr; simpl in Hr.
  - destruct (is_empty cur); [discriminate|]. injection Hr as <- <-.
    exists 0. split; [lia|done].
  - simpl in Hcr. apply andb_true_iff in Hcr as [Hb Hcr].
    destruct (Ascii.eqb b LF).
    + injection Hr as <- <-. exists 1. rewrite length_append. done.
    + destruct (Ascii.eqb b CR); [discriminate|].
      apply IH in Hr as (k & Hlen & Hrest); [|done].
      exists (S k). rewrite length_append in Hlen. simpl in Hlen.
      split; [lia|done].
Qed.

Lemma header_loop_position bytes lines pos0 p out position p' out' :
  no_cr bytes = true ->
  readlines (drop_chars pos0 bytes) = lines ->
  parse_plot_configs_loop lines pos0 p out = Ok (position, p', out') ->
  readlines (drop_chars position bytes) = after_header lines.
Proof.
  intros Hcr. revert pos0 p out.
  induction lines as [|line lines IH]; intros pos0 p out Hlines; simpl.
  - intros [= <- <- <-]. done.
  - destruct (startswith "@" line); [|by intros [= <- <- <-]].
    destruct (run_directive line p out) as [[p1 out1]|]; cbn [bind]; [|discriminate].
    apply IH.
    destruct (readlines_go_first (drop_chars pos0 bytes) EmptyString line lines
                (no_cr_drop _ _ Hcr) Hlines) as (k & Hlen & Hrest).
    simpl in Hlen. subst k. by rewrite <- drop_chars_add.
Qed.

(** In a file without carriage returns the header phase leaves the file at
    the first line that is not a directive. *)
Lemma seek_rereads_boundary_without_cr path bytes p out f p' out' :
  no_cr bytes = true ->
  parse_plot_configs (open_file path bytes) p out = Ok (f, p', out') ->
  pending f = after_header (readlines bytes).
Proof.
  intros Hcr. unfold parse_plot_configs. cbn [pending open_file].
  destruct (parse_plot_configs_loop (readlines bytes) 0 p out)
    as [[[position p1] out1]|] eqn:Hloop; cbn [bind]; [|discriminate].
  intros [= <- <- <-]. cbn [seek pending content open_file].
  by eapply (header_loop_position bytes (readlines bytes) 0).
Qed.

End Boundary.

(** C3: in a file with [\r\n] line endings the position summed over the
    translated header lines falls one byte short per line: after the header
    [@s0 legend A] the data phase first reads an empty line, not the boundary
    line [0 1], and the load fails on it. *)
Theorem crlf_boundary_line_not_reread :
  readlines (content crlf_file)
  = ["@s0 legend A" +:+ lf; "0 1" +:+ lf; "&" +:+ lf]
  /\ (exists f p,
        parse_plot_configs (H := RefLib.ref_lib) crlf_file
          (mkPlot EmptyString [] None) [] = Ok (f, p, [])
        /\ pending f = [lf; "0 1" +:+ lf; "&" +:+ lf])
  /\ init (H := RefLib.ref_lib) crlf_file None [] = Raise ValueError.
Proof.
  split; [reflexivity|]. split; [|vm_compute; reflexivity].
  eexists _, _. split; [vm_compute; reflexivity|reflexivity].
Qed.

(** * Further properties of the code *)

(** ** The selection *)

Lemma chosen_from_member r ls i0 i :
  i ∈ chosen_from r i0 ls <->
  exists l, ls !! (i - i0) = Some l /\ i0 <= i /\ is_chosen r l = true.
Proof.
  revert i0. induction ls as [|l0 ls IH]; intros i0; simpl.
  - split; [intros Hin; inversion Hin|intros (l & Hl & _); inversion Hl].
  - assert (Hrest : i ∈ chosen_from r (S i0) ls <->
                    exists l, (l0 :: ls) !! (i - i0) = Some l /\ i0 < i
                              /\ is_chosen r l = true).
    { rewrite IH. split; intros (l & Hl & Hle & Hc); exists l.
      - split; [|split; [lia|done]].
        replace (i - i0) with (S (i - S i0)) by lia. done.
      - split; [|split; [lia|done]].
        replace (i - i0) with (S (i - S i0)) in Hl by lia. done. }
    destruct (is_chosen r l0) eqn:Hc0.
    + rewrite elem_of_cons, Hrest. split.
      * intros [->|(l & Hl & Hlt & Hc)].
        -- exists l0. rewrite Nat.sub_diag. done.
        -- exists l. split; [done|]. split; [lia|done].
      * intros (l & Hl & Hle & Hc).
        destruct (decide (i = i0)) as [->|Hne]; [by left|].
        right. exists l. split; [done|]. split; [lia|done].
    + rewrite Hrest. split.
      * intros (l & Hl & Hlt & Hc). exists l. split; [done|]. split; [lia|done].
      * intros (l & Hl & Hle & Hc).
        destruct (decide (i = i0)) as [->|Hne].
        -- rewrite Nat.sub_diag in Hl. simpl in Hl. congruence.
        -- exists l. split; [done|]. split; [lia|done].
Qed.

Lemma chosen_from_ascending r ls i0 j k i i' :
  j < k ->
  chosen_from r i0 ls !! j = Some i ->
  chosen_from r i0 ls !! k = Some i' ->
  i < i'.
Proof.
  revert i0 j k. induction ls as [|l0 ls IH]; intros i0 j k Hjk Hj Hk; simpl in *.
  - inversion Hj.
  - destruct (is_chosen r l0); [|by eapply IH].
    destruct j as [|j], k as [|k]; simpl in *; try lia.
    + injection Hj as <-.
      apply list_elem_of_lookup_2, chosen_from_range in Hk. lia.
    + eapply (IH (S i0) j k); [lia|done|done].
Qed.

(** X1: [chosen_layers] refers to a layer exactly when it is stored and passes
    the name test, refers to it once, and keeps the order of declaration. *)
Theorem chosen_layers_sound (p : VmdAgrPlot) :
  (forall i,
     i ∈ chosen_layers p <->
     exists l, layers p !! i = Some l /\ is_chosen (restrict_to p) l = true)
  /\ NoDup (chosen_layers p)
  /\ (forall j k i i',
       j < k -> chosen_layers p !! j = Some i -> chosen_layers p !! k = Some i' ->
       i < i')
  /\ chosen p = List.filter (is_chosen (restrict_to p)) (layers p).
Proof.
  split; [|split; [apply chosen_from_NoDup|split; [|apply chosen_filter]]].
  - intros i. unfold chosen_layers. rewrite chosen_from_member.
    rewrite Nat.sub_0_r. split; intros (l & Hl & Hc); exists l; [tauto|].
    split; [done|]. split; [lia|tauto].
  - intros j k i i'. apply chosen_from_ascending.
Qed.

(** ** The data phase, block by block *)

Section Blockwise.
Context `{PyLib}.

Lemma layer_eta (l : Layer) : mkLayer (name l) (data l) = l.
Proof. by destruct l. Qed.

Lemma read_block_result i lines ls out rest ls' out' :
  read_block i lines ls out = Ok (rest, ls', out') ->
  rest = skip_block lines
  /\ (forall j, j <> i -> ls' !! j = ls !! j)
  /\ (forall l, ls !! i = Some l ->
      ls' !! i = Some (mkLayer (name l) (fill_block (data l) lines))).
Proof.
  revert ls out. induction lines as [|line lines IH]; intros ls out; simpl.
  - intros [= <- <- <-]. split; [done|]. split; [done|].
    intros l Hl. by rewrite layer_eta.
  - destruct (String.eqb (strip line) "&").
    + intros [= <- <- <-]. split; [done|]. split; [done|].
      intros l Hl. by rewrite layer_eta.
    + destruct (parse_point (strip line)) as [[x y]|]; cbn [bind]; [|discriminate].
      intros Hb. apply IH in Hb as (Hrest & Hframe & Hfill).
      split; [done|]. split.
      * intros j Hj. rewrite Hframe by done. by apply list_lookup_alter_ne.
      * intros l Hl. apply (Hfill (layer_set x y l)).
        rewrite list_lookup_alter_eq, Hl. done.
Qed.

Lemma coordinates_loop_result refs lines ls out lines' ls' out' :
  parse_coordinates_loop refs lines ls out = Ok (lines', ls', out') ->
  NoDup refs ->
  lines' = skip_blocks (length refs) lines
  /\ (forall i, i ∉ refs -> ls' !! i = ls !! i)
  /\ (forall j i l, refs !! j = Some i -> ls !! i = Some l ->
      ls' !! i = Some (mkLayer (name l) (fill_block (data l) (skip_blocks j lines)))).
Proof.
  intros Hloop Hnd. revert lines ls out Hloop.
  induction Hnd as [|i0 refs Hi0 Hnd IH]; intros lines ls out; simpl.
  - intros [= <- <- <-]. split; [done|]. split; [done|]. intros j i l Hj. inversion Hj.
  - destruct (read_block i0 lines ls out) as [[[lines1 ls1] out1]|] eqn:Hb;
      cbn [bind]; [|discriminate].
    intros Hloop. apply IH in Hloop as (Hlines & Hout & Hin).
    apply read_block_result in Hb as (-> & Hframe & Hfill).
    split; [done|]. split.
    + intros i Hi. apply not_elem_of_cons in Hi as [Hne Hi].
      rewrite Hout by done. by apply Hframe.
    + intros [|j] i l Hj Hl; simpl in Hj.
      * injection Hj as <-. rewrite Hout by done. by apply Hfill.
      * assert (Hne : i <> i0).
        { intros ->. apply Hi0. by eapply list_elem_of_lookup_2. }
        apply Hin; [done|]. by rewrite Hframe.
Qed.

(** What [init] does, phase by phase. *)
Lemma init_phases fin restrict out f p out' :
  init fin restrict out = Ok (f, p, out') ->
  exists f0 p0 out0,
    parse_plot_configs fin (mkPlot EmptyString [] restrict) out = Ok (f0, p0, out0)
    /\ parse_coordinates_loop (chosen_layers p0) (pending f0) (layers p0) out0
       = Ok (pending f, layers p, out')
    /\ layers p0 = map new_layer (omap legend_of_line (header_lines (pending fin)))
    /\ restrict_to p0 = restrict
    /\ restrict_to p = restrict
    /\ title p = title p0.
Proof.
  unfold init, load.
  destruct (parse_plot_configs fin (mkPlot EmptyString [] restrict) out)
    as [[[f0 p0] out0]|] eqn:Hh; cbn [bind]; [|discriminate].
  unfold parse_coordinates.
  destruct (parse_coordinates_loop (chosen_layers p0) (pending f0) (layers p0) out0)
    as [[[lines1 ls1] out1]|] eqn:Hc; cbn [bind]; [|discriminate].
  intros [= <- <- <-]. exists f0, p0, out0. split; [done|]. split; [exact Hc|].
  unfold parse_plot_configs in Hh.
  destruct (parse_plot_configs_loop (pending fin) 0 (mkPlot EmptyString [] restrict) out)
    as [[[position p1] out1']|] eqn:Hloop; cbn [bind] in Hh; [|discriminate].
  injection Hh as _ <- _.
  apply header_loop_layers in Hloop as [Hl Hr]. simpl in Hl, Hr.
  cbn [set_layers restrict_to title]. done.
Qed.

Lemma chosen_layers_after fin restrict out f p out' f0 p0 out0 :
  parse_plot_configs fin (mkPlot EmptyString [] restrict) out = Ok (f0, p0, out0) ->
  init fin restrict out = Ok (f, p, out') ->
  parse_coordinates_loop (chosen_layers p0) (pending f0) (layers p0) out0
  = Ok (pending f, layers p, out')
  /\ chosen_layers p = chosen_layers p0
  /\ Forall (fun l => data l = []) (layers p0).
Proof.
  intros Hh Hinit.
  apply init_phases in Hinit as (f1 & p1 & out1 & Hh' & Hc & Hl & Hr0 & Hr & _).
  rewrite Hh in Hh'. injection Hh' as <- <- <-.
  split; [exact Hc|]. split.
  - unfold chosen_layers. rewrite Hr, Hr0. apply chosen_from_names.
    by eapply coordinates_loop_names.
  - rewrite Hl. apply new_layers_empty.
Qed.

(** X2: the selection that decides which blocks are read is the selection
    seen after the load: the data phase changes neither the names nor the
    restriction, so [chosen_layers] gives the same references before and
    after it. *)
Theorem selection_unchanged_by_data_phase fin restrict out f p out' f0 p0 out0 :
  parse_plot_configs fin (mkPlot EmptyString [] restrict) out = Ok (f0, p0, out0) ->
  init fin restrict out = Ok (f, p, out') ->
  chosen_layers p = chosen_layers p0
  /\ map name (layers p) = map name (layers p0)
  /\ restrict_to p = restrict.
Proof.
  intros Hh Hinit.
  destruct (chosen_layers_after _ _ _ _ _ _ _ _ _ Hh Hinit) as (Hc & Hch & _).
  split; [done|]. split; [by eapply coordinates_loop_names|].
  by apply init_phases in Hinit as (? & ? & ? & _ & _ & _ & _ & Hr & _).
Qed.

(** X3: a layer that is not chosen has no point after the load. *)
Theorem unchosen_layers_stay_empty fin restrict out f p out' i l :
  init fin restrict out = Ok (f, p, out') ->
  layers p !! i = Some l ->
  i ∉ chosen_layers p ->
  data l = [].
Proof.
  intros Hinit Hl Hi.
  pose proof Hinit as Hph.
  apply init_phases in Hph as (f0 & p0 & out0 & Hh & _).
  destruct (chosen_layers_after _ _ _ _ _ _ _ _ _ Hh Hinit) as (Hc & Hch & Hempty).
  rewrite Hch in Hi.
  apply coordinates_loop_result in Hc as (_ & Hframe & _); [|apply chosen_from_NoDup].
  rewrite (Hframe i Hi) in Hl.
  by eapply (proj1 (Forall_lookup _ _) Hempty).
Qed.

(** X4: the data phase reads exactly one block for each chosen layer and
    leaves the rest of the file unread. *)
Theorem one_block_per_chosen_layer fin restrict out f p out' f0 p0 out0 :
  parse_plot_configs fin (mkPlot EmptyString [] restrict) out = Ok (f0, p0, out0) ->
  init fin restrict out = Ok (f, p, out') ->
  pending f = skip_blocks (length (chosen_layers p)) (pending f0).
Proof.
  intros Hh Hinit.
  destruct (chosen_layers_after _ _ _ _ _ _ _ _ _ Hh Hinit) as (Hc & Hch & _).
  apply coordinates_loop_result in Hc as (Hlines & _); [|apply chosen_from_NoDup].
  by rewrite Hch.
Qed.

(** X5: the chosen layers are filled in order from the blocks of the file in
    order: the layer at position [j] of the selection holds exactly the
    points of block [j] of the data lines, whatever its position among the
    declared layers. *)
Theorem chosen_layer_holds_its_rank_block fin restrict out f p out' f0 p0 out0 j i :
  parse_plot_configs fin (mkPlot EmptyString [] restrict) out = Ok (f0, p0, out0) ->
  init fin restrict out = Ok (f, p, out') ->
  chosen_layers p !! j = Some i ->
  exists l,
    layers p !! i = Some l
    /\ data l = fill_block [] (skip_blocks j (pending f0)).
Proof.
  intros Hh Hinit Hj.
  destruct (chosen_layers_after _ _ _ _ _ _ _ _ _ Hh Hinit) as (Hc & Hch & Hempty).
  rewrite Hch in Hj.
  apply coordinates_loop_result in Hc as (_ & _ & Hfill); [|apply chosen_from_NoDup].
  assert (Hi : i < length (layers p0)).
  { apply list_elem_of_lookup_2, chosen_from_range in Hj. lia. }
  apply lookup_lt_is_Some_2 in Hi as [l0 Hl0].
  rewrite (Hfill j i l0 Hj Hl0). eexists. split; [reflexivity|]. cbn [data].
  by rewrite (proj1 (Forall_lookup _ _) Hempty i l0 Hl0).
Qed.

End Blockwise.

Lemma selection_unchanged_by_data_phase_witness :
  chosen_layers abc_restricted = chosen_layers abc_declared
  /\ map name (layers abc_restricted) = map name (layers abc_declared)
  /\ restrict_to abc_restricted = Some ["B"].
Proof.
  apply (selection_unchanged_by_data_phase (H := RefLib.ref_lib)
           abc_file (Some ["B"]) [] abc_restricted_done abc_restricted []
           abc_after_header abc_declared []).
  - vm_compute. reflexivity.
  - vm_compute. reflexivity.
Defined.

Lemma unchosen_layers_stay_empty_witness :
  layers abc_restricted !! 2 = Some (mkLayer "C" [])
  /\ (2 ∉ chosen_layers abc_restricted)
  /\ data (mkLayer "C" []) = [].
Proof.
  assert (Hout : 2 ∉ chosen_layers abc_restricted).
  { vm_compute. intros Hin. apply list_elem_of_singleton in Hin. discriminate. }
  split; [reflexivity|]. split; [exact Hout|].
  apply (unchosen_layers_stay_empty (H := RefLib.ref_lib)
           abc_file (Some ["B"]) [] abc_restricted_done abc_restricted [] 2).
  - vm_compute. reflexivity.
  - reflexivity.
  - exact Hout.
Defined.

Lemma one_block_per_chosen_layer_witness :
  pending abc_restricted_done
  = skip_blocks (length (chosen_layers abc_restricted)) (pending abc_after_header).
Proof.
  apply (one_block_per_chosen_layer (H := RefLib.ref_lib)
           abc_file (Some ["B"]) [] abc_restricted_done abc_restricted []
           abc_after_header abc_declared []).
  - vm_compute. reflexivity.
  - vm_compute. reflexivity.
Defined.

Lemma chosen_layer_holds_its_rank_block_witness :
  exists l,
    layers abc_restricted !! 1 = Some l
    /\ data l = fill_block (H := RefLib.ref_lib) []
                  (skip_blocks 0 (pending abc_after_header)).
Proof.
  apply (chosen_layer_holds_its_rank_block (H := RefLib.ref_lib)
           abc_file (Some ["B"]) [] abc_restricted_done abc_restricted []
           abc_after_header abc_declared [] 0 1).
  - vm_compute. reflexivity.
  - vm_compute. reflexivity.
  - reflexivity.
Defined.

(** ** The dictionary of a layer *)

Lemma od_contains_false x d :
  od_contains x d = false ->
  forall k kx, map fst d !! k = Some kx -> PrimFloat.eqb kx x = false.
Proof.
  induction d as [|[k0 v0] d IH]; simpl; intros Hc [|k] kx Hk; simpl in Hk;
    try discriminate; apply orb_false_iff in Hc as [H0 Hd].
  - by injection Hk as <-.
  - by eapply IH.
Qed.

Lemma od_set_absent x y d :
  od_contains x d = false -> od_set x y d = d ++ [(x, y)].
Proof.
  induction d as [|[k v] d IH]; simpl; [done|].
  intros Hc. apply orb_false_iff in Hc as [-> Hd]. by rewrite IH.
Qed.

Lemma od_set_present x y d :
  od_contains x d = true ->
  map fst (od_set x y d) = map fst d /\ length (od_set x y d) = length d.
Proof.
  induction d as [|[k v] d IH]; simpl; [discriminate|].
  destruct (PrimFloat.eqb k x); simpl; [done|].
  intros Hd. destruct (IH Hd) as [-> ->]. done.
Qed.

Lemma od_contains_app x d d' :
  od_contains x (d ++ d') = od_contains x d || od_contains x d'.
Proof. unfold od_contains. apply existsb_app. Qed.

(** X6: storing under a new x appends the point after all the others;
    storing under an x already present changes neither the keys nor their
    order; afterwards x is found, unless x is different from itself (NaN). *)
Theorem od_set_insertion_order (x y : float) (d : odict) :
  (od_contains x d = false -> od_set x y d = d ++ [(x, y)])
  /\ (od_contains x d = true ->
      map fst (od_set x y d) = map fst d /\ length (od_set x y d) = length d)
  /\ od_contains x (od_set x y d) = od_contains x d || PrimFloat.eqb x x.
Proof.
  split; [apply od_set_absent|]. split; [apply od_set_present|].
  destruct (od_contains x d) eqn:Hc.
  - induction d as [|[k v] d IH]; simpl in *; [discriminate|].
    destruct (PrimFloat.eqb k x) eqn:Hk; simpl; [by rewrite Hk|].
    rewrite Hk. simpl. by apply IH.
  - rewrite od_set_absent, od_contains_app, Hc by done. simpl.
    by rewrite orb_false_r.
Qed.

Lemma od_set_distinct x y d : distinct_keys d -> distinct_keys (od_set x y d).
Proof.
  intros Hd. destruct (od_contains x d) eqn:Hc.
  - destruct (od_set_present x y d Hc) as [Hk _].
    unfold distinct_keys. rewrite Hk. exact Hd.
  - rewrite (od_set_absent x y d Hc). intros a b ka kb Hab Ha Hb.
    rewrite map_app in Ha, Hb. simpl in Ha, Hb.
    assert (Hlen : b < length (map fst d ++ [x])) by (by eapply lookup_lt_Some).
    rewrite length_app in Hlen. simpl in Hlen.
    rewrite lookup_app_l in Ha by lia.
    destruct (decide (b < length (map fst d))) as [Hlt|Hge].
    + rewrite lookup_app_l in Hb by done. exact (Hd a b ka kb Hab Ha Hb).
    + rewrite lookup_app_r in Hb by lia.
      replace (b - length (map fst d)) with 0 in Hb by lia.
      injection Hb as <-. exact (od_contains_false x d Hc a ka Ha).
Qed.

Section Dictionaries.
Context `{PyLib}.

Lemma fill_block_distinct d lines :
  distinct_keys d -> distinct_keys (fill_block d lines).
Proof.
  revert d. induction lines as [|line lines IH]; intros d Hd; simpl; [done|].
  destruct (String.eqb (strip line) "&"); [done|].
  destruct (parse_point (strip line)) as [[x y]|]; [|done].
  by apply IH, od_set_distinct.
Qed.

(** X7: after a load no layer holds the same x twice: within the keys of a
    layer, no key equals as a float a key stored after it. *)
Theorem loaded_layers_have_distinct_keys fin restrict out f p out' i l :
  init fin restrict out = Ok (f, p, out') ->
  layers p !! i = Some l ->
  distinct_keys (data l).
Proof.
  intros Hinit Hl.
  assert (Hnil : distinct_keys []).
  { intros a b ka kb _ Ha. inversion Ha. }
  destruct (decide (i ∈ chosen_layers p)) as [Hin|Hout].
  - pose proof Hinit as Hph.
    apply init_phases in Hph as (f0 & p0 & out0 & Hh & _).
    apply list_elem_of_lookup_1 in Hin as [j Hj].
    destruct (chosen_layer_holds_its_rank_block _ _ _ _ _ _ _ _ _ j i Hh Hinit Hj)
      as (l' & Hl' & Hdata).
    rewrite Hl in Hl'. injection Hl' as <-. rewrite Hdata.
    by apply fill_block_distinct.
  - by rewrite (unchosen_layers_stay_empty _ _ _ _ _ _ i l Hinit Hl Hout).
Qed.

Lemma length_od_set x y d :
  length (od_set x y d) = if od_contains x d then length d else S (length d).
Proof.
  destruct (od_contains x d) eqn:Hc.
  - by destruct (od_set_present x y d Hc).
  - rewrite od_set_absent, length_app by done. simpl. lia.
Qed.

(** X8: every point line of a block either adds a point to the layer or
    prints one line: the points and the printed lines grow together by the
    number of lines of the block. *)
Theorem each_point_line_adds_or_warns i lines ls out rest ls' out' l :
  read_block i lines ls out = Ok (rest, ls', out') ->
  ls !! i = Some l ->
  exists l',
    ls' !! i = Some l'
    /\ length (data l') + length out'
       = length (data l) + length out + length (block_lines lines).
Proof.
  revert ls out l. induction lines as [|line lines IH]; intros ls out l; simpl.
  - intros [= <- <- <-] Hl. exists l. split; [done|lia].
  - destruct (String.eqb (strip line) "&").
    + intros [= <- <- <-] Hl. exists l. split; [done|simpl; lia].
    + destruct (parse_point (strip line)) as [[x y]|]; cbn [bind]; [|discriminate].
      intros Hb Hl.
      eapply IH in Hb as (l' & Hl' & Hlen);
        [|by rewrite list_lookup_alter_eq, Hl].
      exists l'. split; [done|]. rewrite Hlen.
      unfold layer_has. rewrite Hl. cbn [layer_set data length].
      rewrite length_od_set.
      destruct (od_contains x (data l)); rewrite ?length_app; simpl; lia.
Qed.

End Dictionaries.

Lemma loaded_layers_have_distinct_keys_witness :
  distinct_keys (data (mkLayer "B" [(0, 1)%float])).
Proof.
  apply (loaded_layers_have_distinct_keys (H := RefLib.ref_lib)
           abc_file (Some ["B"]) [] abc_restricted_done abc_restricted [] 1).
  - vm_compute. reflexivity.
  - reflexivity.
Defined.

Lemma each_point_line_adds_or_warns_witness :
  exists l',
    [mkLayer "A" [(0, 2)%float]] !! 0 = Some l'
    /\ length (data l') + length ["Data inconsistency: 0.0 occurs twice as x"]
       = length (data (new_layer "A")) + length (@nil string)
         + length (block_lines ["0 1" +:+ lf; "0 2" +:+ lf; "&" +:+ lf]).
Proof.
  apply (each_point_line_adds_or_warns (H := RefLib.ref_lib) 0
           ["0 1" +:+ lf; "0 2" +:+ lf; "&" +:+ lf] [new_layer "A"] [] []).
  - vm_compute. reflexivity.
  - reflexivity.
Defined.

(** ** The header phase *)

Section Directives.
Context `{PyLib}.

Lemma run_directive_title line p out p' out' :
  run_directive line p out = Ok (p', out') ->
  title p' = default (title p) (title_of_line line).
Proof.
  unfold run_directive, title_of_line, item.
  destruct (shlex_split (strip line)) as [[|command values]|]; simpl; try discriminate.
  destruct (String.eqb (lstrip_char "@" command) "title") eqn:Et.
  - destruct values as [|v0 vs]; simpl; try discriminate. by intros [= <- <-].
  - assert (Hkeep : default (title p)
                      (match values with
                       | [] => None
                       | _ :: _ => None
                       end) = title p) by (by destruct values).
    destruct (startswith "s" (lstrip_char "@" command)).
    + destruct values as [|v0 vs]; simpl; try discriminate.
      destruct (String.eqb v0 "legend"); simpl.
      * destruct vs as [|v1 vs]; simpl; try discriminate. by intros [= <- <-].
      * destruct (String.eqb (lstrip_char "@" command) "type"); simpl.
        -- destruct (String.eqb v0 "xy"); try discriminate. by intros [= <- <-].
        -- by intros [= <- <-].
    + simpl. destruct (String.eqb (lstrip_char "@" command) "type"); simpl.
      * destruct values as [|v0 vs]; simpl; try discriminate.
        destruct (String.eqb v0 "xy"); try discriminate. by intros [= <- <-].
      * intros [= <- <-]. by destruct values.
Qed.

Lemma run_directive_type line p out p' out' v :
  run_directive line p out = Ok (p', out') ->
  type_of_line line = Some v ->
  v = "xy".
Proof.
  unfold run_directive, type_of_line, item.
  destruct (shlex_split (strip line)) as [[|command [|v0 vs]]|]; simpl;
    try discriminate.
  destruct (String.eqb (lstrip_char "@" command) "type") eqn:Ety; [|discriminate].
  apply String.eqb_eq in Ety. rewrite Ety. simpl.
  destruct (String.eqb v0 "legend"); simpl.
  - destruct (String.eqb v0 "xy") eqn:Exy; [|discriminate].
    intros _ [= <-]. by apply String.eqb_eq.
  - destruct (String.eqb v0 "xy") eqn:Exy; [|discriminate].
    intros _ [= <-]. by apply String.eqb_eq.
Qed.

Lemma header_loop_title lines position p out position' p' out' :
  parse_plot_configs_loop lines position p out = Ok (position', p', out') ->
  title p' = default (title p) (last (omap title_of_line (header_lines lines))).
Proof.
  revert position p out.
  induction lines as [|line lines IH]; intros position p out; simpl.
  - by intros [= <- <- <-].
  - destruct (startswith "@" line); [|by intros [= <- <- <-]].
    destruct (run_directive line p out) as [[p1 out1]|] eqn:Hd; cbn [bind];
      [|discriminate].
    intros Hloop. apply IH in Hloop. apply run_directive_title in Hd.
    rewrite Hloop, Hd.
    change (omap title_of_line (line :: header_lines lines)) with
      (match title_of_line line with
       | Some t => t :: omap title_of_line (header_lines lines)
       | None => omap title_of_line (header_lines lines)
       end).
    destruct (title_of_line line) as [t|]; [|done].
    rewrite last_cons. simpl.
    by destruct (last (omap title_of_line (header_lines lines))).
Qed.

Lemma header_loop_type lines position p out position' p' out' line v :
  parse_plot_configs_loop lines position p out = Ok (position', p', out') ->
  In line (header_lines lines) ->
  type_of_line line = Some v ->
  v = "xy".
Proof.
  revert position p out.
  induction lines as [|line0 lines IH]; intros position p out; simpl.
  - intros _ [].
  - destruct (startswith "@" line0); [|intros _ []].
    destruct (run_directive line0 p out) as [[p1 out1]|] eqn:Hd; cbn [bind];
      [|discriminate].
    intros Hloop [->|Hin] Hty.
    + by eapply run_directive_type.
    + by eapply IH.
Qed.

Lemma init_header fin restrict out f p out' :
  init fin restrict out = Ok (f, p, out') ->
  exists position p0 out0,
    parse_plot_configs_loop (pending fin) 0 (mkPlot EmptyString [] restrict) out
    = Ok (position, p0, out0)
    /\ title p = title p0.
Proof.
  intros Hinit.
  apply init_phases in Hinit as (f0 & p0 & out0 & Hh & _ & _ & _ & _ & Ht).
  unfold parse_plot_configs in Hh.
  destruct (parse_plot_configs_loop (pending fin) 0 (mkPlot EmptyString [] restrict) out)
    as [[[position p1] out1]|] eqn:Hloop; cbn [bind] in Hh; [|discriminate].
  injection Hh as _ <- _. by exists position, p1, out1.
Qed.

(** X9: the title of a loaded document is the value of the last [title]
    directive of the header, and is empty when the header has none. *)
Theorem title_is_last_title_directive fin restrict out f p out' :
  init fin restrict out = Ok (f, p, out') ->
  title p = default EmptyString
              (last (omap title_of_line (header_lines (pending fin)))).
Proof.
  intros Hinit. apply init_header in Hinit as (position & p0 & out0 & Hloop & ->).
  by apply header_loop_title in Hloop.
Qed.

(** X10: a header that holds a [type] directive with a value other than
    [xy] makes the load fail: the assertion lets no other value through. *)
Theorem type_other_than_xy_aborts_load fin restrict out line v :
  In line (header_lines (pending fin)) ->
  type_of_line line = Some v ->
  v <> "xy" ->
  exists e, init fin restrict out = Raise e.
Proof.
  intros Hin Hty Hv.
  destruct (init fin restrict out) as [[[f p] out']|e] eqn:Hinit; [|by exists e].
  exfalso. apply Hv.
  apply init_header in Hinit as (position & p0 & out0 & Hloop & _).
  by eapply header_loop_type.
Qed.

Lemma header_then_rest lines : lines = header_lines lines ++ after_header lines.
Proof.
  induction lines as [|l lines IH]; simpl; [done|].
  destruct (startswith "@" l); simpl; [by f_equal|done].
Qed.

Lemma after_header_head lines l rest :
  after_header lines = l :: rest -> startswith "@" l = false.
Proof.
  induction lines as [|l0 lines IH]; simpl; [discriminate|].
  destruct (startswith "@" l0) eqn:E; [done|]. by intros [= <- <-].
Qed.

(** X11: in a file of ASCII characters without carriage returns, where the
    characters the code counts are the bytes [seek] takes, the header phase
    leaves the file positioned on the first line that is not a directive:
    the lines of the file are the directive lines it has obeyed followed by
    the lines still to be read, the first of which does not begin with [@]. *)
Theorem header_phase_stops_at_first_data_line path bytes p out f p' out' :
  is_ascii bytes = true ->
  no_cr bytes = true ->
  parse_plot_configs (open_file path bytes) p out = Ok (f, p', out') ->
  readlines bytes = header_lines (readlines bytes) ++ pending f
  /\ forall l rest, pending f = l :: rest -> startswith "@" l = false.
Proof.
  intros _ Hcr Hh.
  rewrite (seek_rereads_boundary_without_cr path bytes p out f p' out' Hcr Hh).
  split; [apply header_then_rest|apply after_header_head].
Qed.

End Directives.

Lemma title_is_last_title_directive_witness :
  exists f p out',
    init (H := RefLib.ref_lib)
      (open_file "run.agr"
         (unlines lf ["@title one"; "@s0 legend A"; "@title 'two words'"; "0 1"; "&"]))
      None [] = Ok (f, p, out')
    /\ title p = "two words".
Proof.
  eexists _, _, _. split; [vm_compute; reflexivity|].
  refine (eq_trans
            (title_is_last_title_directive (H := RefLib.ref_lib)
               (open_file "run.agr"
                  (unlines lf ["@title one"; "@s0 legend A"; "@title 'two words'";
                               "0 1"; "&"]))
               None [] _ _ _ _) _).
  - vm_compute. reflexivity.
  - vm_compute. reflexivity.
Defined.

Lemma type_other_than_xy_aborts_load_witness :
  exists e,
    init (H := RefLib.ref_lib)
      (open_file "run.agr" (unlines lf ["@type bar"; "@s0 legend A"; "0 1"; "&"]))
      None [] = Raise e.
Proof.
  apply (type_other_than_xy_aborts_load (H := RefLib.ref_lib)
           (open_file "run.agr" (unlines lf ["@type bar"; "@s0 legend A"; "0 1"; "&"]))
           None [] ("@type bar" +:+ lf) "bar").
  - vm_compute. left. reflexivity.
  - vm_compute. reflexivity.
  - discriminate.
Defined.

Lemma header_phase_stops_at_first_data_line_witness :
  readlines (content abc_file)
  = header_lines (readlines (content abc_file)) ++ pending abc_after_header
  /\ forall l rest, pending abc_after_header = l :: rest -> startswith "@" l = false.
Proof.
  apply (header_phase_stops_at_first_data_line (H := RefLib.ref_lib)
           "run.agr" (content abc_file) (mkPlot EmptyString [] (Some ["B"])) []
           abc_after_header abc_declared []).
  - vm_compute. reflexivity.
  - vm_compute. reflexivity.
  - vm_compute. reflexivity.
Defined.

(** ** The shape of the exported table *)

Section Table.
Context `{PyLib}.

Lemma length_csv_headers ls : length (csv_headers ls) = 2 * length ls.
Proof. induction ls as [|l ls IH]; simpl; [done|]. rewrite IH. lia. Qed.

Lemma length_rows ls fields :
  length (flat_map (rows_of fields) ls)
  = list_sum (map (fun l => length (data l)) ls).
Proof.
  induction ls as [|l ls IH]; simpl; [done|].
  rewrite length_app, IH. unfold rows_of. by rewrite length_map.
Qed.

Lemma rows_rectangular ls fields :
  Forall (fun row => length row = length fields) (flat_map (rows_of fields) ls).
Proof.
  apply Forall_forall. intros row Hrow.
  apply list_elem_of_In, in_flat_map in Hrow as (l & _ & Hrow).
  unfold rows_of in Hrow. apply in_map_iff in Hrow as (xy & <- & _).
  apply length_map.
Qed.

(** X12: [to_csv] never raises; the table has two columns for each chosen
    layer, one row for each point of the chosen layers, and every row has a
    cell under every column. *)
Theorem to_csv_shape (p : VmdAgrPlot) :
  exists t,
    to_csv p = Ok t
    /\ fieldnames t = csv_headers (chosen p)
    /\ length (fieldnames t) = 2 * length (chosen p)
    /\ length (rows t) = list_sum (map (fun l => length (data l)) (chosen p))
    /\ Forall (fun row => length row = length (fieldnames t)) (rows t).
Proof.
  eexists. split; [apply to_csv_total|]. cbn [fieldnames rows].
  split; [done|]. split; [apply length_csv_headers|].
  split; [apply length_rows|apply rows_rectangular].
Qed.

Lemma names_distinct_lookup (ls : list Layer) i j l l' :
  List.NoDup (map name ls) ->
  ls !! i = Some l -> ls !! j = Some l' -> name l = name l' -> i = j.
Proof.
  intros Hnd Hi Hj Hn. apply NoDup_ListNoDup in Hnd.
  eapply (proj1 (NoDup_alt _) Hnd i j (name l)).
  - by rewrite lookup_map, Hi.
  - by rewrite lookup_map, Hj, Hn.
Qed.

(** X13: when the chosen layers have distinct names, every row of the table
    is the row of one point of one chosen layer: it holds the printed x and
    y of the point under the two columns of that layer and an empty cell
    under the columns of every other layer. *)
Theorem csv_rows_are_sparse (p : VmdAgrPlot) (t : CsvFile) (row : list string) :
  List.NoDup (map name (chosen p)) ->
  to_csv p = Ok t ->
  In row (rows t) ->
  exists i l x y,
    chosen p !! i = Some l
    /\ In (x, y) (data l)
    /\ row !! (2 * i) = Some (float_repr x)
    /\ row !! (2 * i + 1) = Some (float_repr y)
    /\ forall j, j <> i -> j < length (chosen p) ->
         row !! (2 * j) = Some EmptyString
         /\ row !! (2 * j + 1) = Some EmptyString.
Proof.
  intros Hnd Ht Hrow. rewrite to_csv_total in Ht. injection Ht as <-.
  cbn [rows] in Hrow.
  apply in_flat_map in Hrow as (l & Hl & Hrow).
  unfold rows_of in Hrow. apply in_map_iff in Hrow as ([x y] & <- & Hxy).
  apply list_elem_of_In, list_elem_of_lookup_1 in Hl as [i Hi].
  exists i, l, x, y. split; [done|]. split; [done|]. cbn [fst snd].
  destruct (headers_lookup (chosen p) i l Hi) as [Hx Hy].
  destruct (cells_of_row _ _ _ (name l) (name l) x y Hx Hy) as [-> ->].
  rewrite String.eqb_refl. split; [done|]. split; [done|].
  intros j Hj Hlt. apply lookup_lt_is_Some_2 in Hlt as [l' Hl'].
  destruct (headers_lookup (chosen p) j l' Hl') as [Hx' Hy'].
  destruct (cells_of_row _ _ _ (name l') (name l) x y Hx' Hy') as [-> ->].
  assert (Hne : String.eqb (name l) (name l') = false).
  { apply String.eqb_neq. intros Hn. apply Hj. symmetry.
    by eapply (names_distinct_lookup (chosen p) i j l l'). }
  by rewrite Hne.
Qed.

End Table.

Lemma csv_rows_are_sparse_witness :
  exists i l x y,
    chosen abc_plot !! i = Some l
    /\ In (x, y) (data l)
    /\ ["0.0"; "1.0"; EmptyString; EmptyString; EmptyString; EmptyString] !! (2 * i)
       = Some (float_repr (PyLib := RefLib.ref_lib) x)
    /\ ["0.0"; "1.0"; EmptyString; EmptyString; EmptyString; EmptyString] !! (2 * i + 1)
       = Some (float_repr (PyLib := RefLib.ref_lib) y)
    /\ forall j, j <> i -> j < length (chosen abc_plot) ->
         ["0.0"; "1.0"; EmptyString; EmptyString; EmptyString; EmptyString] !! (2 * j)
         = Some EmptyString
         /\ ["0.0"; "1.0"; EmptyString; EmptyString; EmptyString; EmptyString]
              !! (2 * j + 1)
            = Some EmptyString.
Proof.
  eapply (csv_rows_are_sparse (H := RefLib.ref_lib) abc_plot).
  - vm_compute. repeat constructor; simpl; intuition discriminate.
  - vm_compute. reflexivity.
  - vm_compute. left. reflexivity.
Defined.

(** ** [plot] and [main] *)

Lemma length_chosen_from r i ls :
  length (chosen_from r i ls) = length (List.filter (is_chosen r) ls).
Proof.
  revert i. induction ls as [|l ls IH]; intros i; simpl; [done|].
  destruct (is_chosen r l); simpl; by rewrite IH.
Qed.

Lemma length_chosen p : length (chosen p) = length (chosen_layers p).
Proof. rewrite chosen_filter. unfold chosen_layers. by rewrite length_chosen_from. Qed.

Lemma plot_layers_unlabelled sc labels i0 ls :
  labels_given labels = false ->
  exists lines,
    plot_layers sc labels i0 ls = Ok lines
    /\ map line_label lines = map name ls.
Proof.
  intros Hg. revert i0. induction ls as [|l ls IH]; intros i0; simpl.
  - by eexists.
  - rewrite Hg. cbn [bind]. destruct (IH (S i0)) as (more & -> & Hm).
    cbn [bind]. eexists. split; [reflexivity|]. simpl. by rewrite Hm.
Qed.

Lemma plot_layers_labelled sc (given : list string) i0 ls :
  labels_given (Some given) = true ->
  i0 + length ls <= length given ->
  exists lines,
    plot_layers sc (Some given) i0 ls = Ok lines
    /\ map line_label lines = take (length ls) (drop i0 given).
Proof.
  intros Hg. revert i0. induction ls as [|l ls IH]; intros i0 Hlen; simpl in *.
  - by eexists.
  - rewrite Hg. unfold item.
    change (default [] (Some given)) with given.
    destruct (lookup_lt_is_Some_2 given i0) as [label Hlabel]; [lia|].
    rewrite Hlabel. cbn [of_option bind].
    destruct (IH (S i0)) as (more & -> & Hm); [lia|].
    cbn [bind]. eexists. split; [reflexivity|]. simpl.
    rewrite Hm. by rewrite (drop_S given label i0 Hlabel).
Qed.

(** X14: [plot] never raises: the count check comes before the loop, so
    [labels[i]] is always in range. When it returns a figure it has printed
    nothing, the figure carries the title of the document and one line per
    chosen layer, labelled with the given labels in order, or with the layer
    names when no label is given. *)
Theorem plot_returns_labelled_figure matplotlib p sc ax lg labels out :
  exists r,
    plot matplotlib p sc ax lg labels out = Ok r
    /\ forall fig,
         fst r = Some fig ->
         snd r = out
         /\ fig_title fig = title p
         /\ fig_axes fig = ax
         /\ fig_legend fig = lg
         /\ map line_label (fig_lines fig)
            = if labels_given labels then default [] labels
              else map name (chosen p).
Proof.
  unfold plot. destruct (negb matplotlib).
  { eexists. split; [reflexivity|]. simpl. discriminate. }
  destruct (labels_given labels) eqn:Hg; cbn [andb].
  - destruct labels as [given|]; [|discriminate].
    change (default [] (Some given)) with given.
    destruct (length given =? length (chosen_layers p))%nat eqn:Hlen; cbn [negb].
    + apply Nat.eqb_eq in Hlen. rewrite <- length_chosen in Hlen.
      destruct (plot_layers_labelled sc given 0 (chosen p) Hg) as (lines & -> & Hl);
        [lia|].
      cbn [bind]. eexists. split; [reflexivity|]. cbn [fst snd].
      intros fig [= <-]. cbn [fig_title fig_axes fig_legend fig_lines].
      repeat (split; [done|]).
      rewrite Hl, <- Hlen. rewrite drop_0. apply firstn_all.
    + eexists. split; [reflexivity|]. simpl. discriminate.
  - destruct (plot_layers_unlabelled sc labels 0 (chosen p) Hg) as (lines & -> & Hl).
    cbn [bind]. eexists. split; [reflexivity|]. cbn [fst snd].
    intros fig [= <-]. cbn [fig_title fig_axes fig_legend fig_lines]. done.
Qed.

Section Runs.
Context `{PyLib}.

Lemma export_and_show_ok args p fig out :
  (fig = None -> do_not_plot args = true /\ (export args = None \/ export args = Some csv)) ->
  exists w,
    export_and_show args p fig out = Ok w
    /\ (files w = []
        \/ exists fmt a,
             export args = Some fmt
             /\ files w = [(basename (file_name (input_file args)) +:+ "."
                            +:+ format_name fmt, a)]
             /\ match fmt with
                | csv => exists t, to_csv p = Ok t /\ a = CsvArtifact t
                | _ => exists f, fig = Some f /\ a = ImageArtifact f
                end)
    /\ shown w = (if do_not_plot args then []
                  else match fig with Some f => [f] | None => [] end).
Proof.
  intros Hfig. unfold export_and_show.
  destruct (export args) as [fmt|] eqn:He.
  - assert (Hart : exists a,
              match fmt with
              | csv => let* t := to_csv p in Ok (CsvArtifact t)
              | _ => let* f := of_option UnboundLocalError fig in Ok (ImageArtifact f)
              end = Ok a
              /\ match fmt with
                 | csv => exists t, to_csv p = Ok t /\ a = CsvArtifact t
                 | _ => exists f, fig = Some f /\ a = ImageArtifact f
                 end).
    { destruct fmt.
      - rewrite to_csv_total. cbn [bind]. eexists. split; [reflexivity|]. by eexists.
      - destruct fig as [f|]; [cbn; eexists; split; [reflexivity|by eexists]|].
        destruct (Hfig eq_refl) as [_ [?|?]]; discriminate.
      - destruct fig as [f|]; [cbn; eexists; split; [reflexivity|by eexists]|].
        destruct (Hfig eq_refl) as [_ [?|?]]; discriminate.
      - destruct fig as [f|]; [cbn; eexists; split; [reflexivity|by eexists]|].
        destruct (Hfig eq_refl) as [_ [?|?]]; discriminate. }
    destruct Hart as (a & -> & Ha). cbn [bind].
    destruct (do_not_plot args) eqn:Hd; cbn [negb].
    + eexists. split; [reflexivity|]. cbn [files shown]. split; [|done].
      right. by exists fmt, a.
    + destruct fig as [f|]; [|destruct (Hfig eq_refl) as [? _]; discriminate].
      cbn [of_option bind]. eexists. split; [reflexivity|]. cbn [files shown].
      split; [|done]. right. by exists fmt, a.
  - cbn [bind]. destruct (do_not_plot args) eqn:Hd; cbn [negb].
    + eexists. split; [reflexivity|]. cbn [files shown]. by split; [left|].
    + destruct fig as [f|]; [|destruct (Hfig eq_refl) as [? _]; discriminate].
      cbn [of_option bind]. eexists. split; [reflexivity|]. by split; [left|].
Qed.

(** X16: a run of [main] that ends normally has written at most one file,
    named after the base name of the input and the export format; a csv file
    holds the table of [to_csv]; nothing is shown under [--do_not_plot]; and
    an image written and a figure shown are one and the same figure. *)
Theorem main_outputs (matplotlib : bool) (args : Args) (w : World) :
  main matplotlib args = Ok w ->
  (files w = []
   \/ exists fmt a,
        export args = Some fmt
        /\ files w = [(basename (file_name (input_file args)) +:+ "."
                       +:+ format_name fmt, a)]
        /\ (fmt = csv <-> exists t, a = CsvArtifact t))
  /\ (do_not_plot args = true -> shown w = [])
  /\ length (shown w) <= 1
  /\ (forall fn fig fig',
        In (fn, ImageArtifact fig) (files w) -> In fig' (shown w) -> fig = fig').
Proof.
  unfold main.
  destruct (init (input_file args) (arg_restrict_to args) []) as [[[f p] out]|e0];
    cbn [bind]; [|discriminate].
  set (q := match arg_title args with
            | Some (String _ _ as t) => set_title t p
            | _ => p
            end).
  assert (Hfail : forall o, let w0 := mkWorld o [] [] in
             (files w0 = []
              \/ exists fmt a,
                   export args = Some fmt
                   /\ files w0 = [(basename (file_name (input_file args)) +:+ "."
                                   +:+ format_name fmt, a)]
                   /\ (fmt = csv <-> exists t, a = CsvArtifact t))
             /\ (do_not_plot args = true -> shown w0 = [])
             /\ length (shown w0) <= 1
             /\ (forall fn fig fig',
                   In (fn, ImageArtifact fig) (files w0) -> In fig' (shown w0) ->
                   fig = fig')).
  { intros o. simpl. split; [by left|]. split; [done|]. split; [lia|]. by intros. }
  assert (Hshow : forall fig o,
             (fig = None ->
              do_not_plot args = true
              /\ (export args = None \/ export args = Some csv)) ->
             export_and_show args q fig o = Ok w ->
             (files w = []
              \/ exists fmt a,
                   export args = Some fmt
                   /\ files w = [(basename (file_name (input_file args)) +:+ "."
                                  +:+ format_name fmt, a)]
                   /\ (fmt = csv <-> exists t, a = CsvArtifact t))
             /\ (do_not_plot args = true -> shown w = [])
             /\ length (shown w) <= 1
             /\ (forall fn fg fg',
                   In (fn, ImageArtifact fg) (files w) -> In fg' (shown w) ->
                   fg = fg')).
  { intros fig o Hfig Hes.
    destruct (export_and_show_ok args q fig o Hfig) as (w' & Hw' & Hfiles & Hshown).
    rewrite Hes in Hw'. injection Hw' as <-.
    split; [|split; [|split]].
    - destruct Hfiles as [Hnone|(fmt & a & He & Hf & Ha)]; [by left|].
      right. exists fmt, a. split; [done|]. split; [done|].
      destruct fmt.
      + destruct Ha as (t & _ & ->). split; [by eexists|done].
      + destruct Ha as (fg & _ & ->). split; [discriminate|]. intros [t Ht]. discriminate.
      + destruct Ha as (fg & _ & ->). split; [discriminate|]. intros [t Ht]. discriminate.
      + destruct Ha as (fg & _ & ->). split; [discriminate|]. intros [t Ht]. discriminate.
    - intros Hd. by rewrite Hshown, Hd.
    - rewrite Hshown. destruct (do_not_plot args); [simpl; lia|].
      destruct fig; simpl; lia.
    - intros fn fg fg' Hin Hsh. rewrite Hshown in Hsh.
      destruct (do_not_plot args); [done|].
      destruct fig as [f0|]; [|done]. destruct Hsh as [<-|[]].
      destruct Hfiles as [Hnone|(fmt & a & He & Hf & Ha)].
      + rewrite Hnone in Hin. done.
      + rewrite Hf in Hin. destruct Hin as [[= _ ->]|[]].
        destruct fmt.
        * destruct Ha as (t & _ & Ht). discriminate.
        * destruct Ha as (f1 & Hf1 & Ha1). congruence.
        * destruct Ha as (f1 & Hf1 & Ha1). congruence.
        * destruct Ha as (f1 & Hf1 & Ha1). congruence. }
  fold q.
  destruct (negb (do_not_plot args) || is_set (export args)) eqn:Hwant.
  - destruct (plot matplotlib q (scale args) (Some (axis_x args, axis_y args))
                (Some (legend_position args)) (arg_labels args) out)
      as [[fig out1]|]; cbn [bind]; [|discriminate].
    destruct fig as [fg|].
    + apply Hshow. discriminate.
    + intros [= <-]. apply Hfail.
  - apply orb_false_iff in Hwant as [Hd He]. apply negb_false_iff in Hd.
    apply Hshow. intros _. split; [done|]. left. by destruct (export args).
Qed.

End Runs.

Lemma main_outputs_witness :
  exists w,
    main (H := RefLib.ref_lib) true
      (mkArgs abc_file false (Some "RMSD") "frame" "y" None (Some png)
              (1, 1)%float (1, 1)%float None) = Ok w
    /\ files w <> []
    /\ length (shown w) <= 1
    /\ (forall fn fig fig',
          In (fn, ImageArtifact fig) (files w) -> In fig' (shown w) -> fig = fig').
Proof.
  eexists. split; [vm_compute; reflexivity|]. split; [discriminate|].
  apply (main_outputs (H := RefLib.ref_lib) true
           (mkArgs abc_file false (Some "RMSD") "frame" "y" None (Some png)
                   (1, 1)%float (1, 1)%float None)).
  vm_compute. reflexivity.
Defined.

(** ** Lines that abort the load *)

Section Aborts.
Context `{PyLib}.

Lemma run_directive_lacking line p out :
  shlex_split (strip line) = None \/ lacks_argument line = true ->
  exists e, run_directive line p out = Raise e.
Proof.
  unfold run_directive, lacks_argument, item.
  intros [->|Hl]; [by eexists|].
  destruct (shlex_split (strip line)) as [[|command [|v0 [|v1 vs]]]|];
    try discriminate; simpl in *.
  - destruct (String.eqb (lstrip_char "@" command) "title"); [by eexists|].
    destruct (startswith "s" (lstrip_char "@" command)); [by eexists|]. simpl in *.
    rewrite Hl. by eexists.
  - apply andb_true_iff in Hl as [Hs Hk].
    destruct (String.eqb (lstrip_char "@" command) "title") eqn:Et.
    { apply String.eqb_eq in Et. rewrite Et in Hs. discriminate. }
    rewrite Hs, Hk. simpl. by eexists.
Qed.

Lemma header_loop_each_obeyed lines position p out r line :
  parse_plot_configs_loop lines position p out = Ok r ->
  In line (header_lines lines) ->
  exists p1 out1 r1, run_directive line p1 out1 = Ok r1.
Proof.
  revert position p out.
  induction lines as [|line0 lines IH]; intros position p out; simpl.
  - intros _ [].
  - destruct (startswith "@" line0); [|intros _ []].
    destruct (run_directive line0 p out) as [[p1 out1]|] eqn:Hd; cbn [bind];
      [|discriminate].
    intros Hloop [->|Hin]; [by eexists _, _, _|]. by eapply IH.
Qed.

(** X17: a header line whose quoting cannot be tokenised, or whose command
    lacks the argument it reads, makes the load fail, wherever it stands in
    the header. *)
Theorem incomplete_directive_aborts_load fin restrict out line :
  In line (header_lines (pending fin)) ->
  shlex_split (strip line) = None \/ lacks_argument line = true ->
  exists e, init fin restrict out = Raise e.
Proof.
  intros Hin Hbad.
  destruct (init fin restrict out) as [[[f p] out']|e] eqn:Hinit; [|by exists e].
  exfalso.
  apply init_header in Hinit as (position & p0 & out0 & Hloop & _).
  destruct (header_loop_each_obeyed _ _ _ _ _ line Hloop Hin) as (p1 & out1 & r1 & Hok).
  destruct (run_directive_lacking line p1 out1 Hbad) as [e He]. congruence.
Qed.

Lemma parse_point_two_tokens s xy :
  parse_point s = Ok xy -> length (split_ws s) = 2.
Proof.
  unfold parse_point.
  destruct (mapM float_of_str (split_ws s)) as [cs|] eqn:Hm; cbn; [|discriminate].
  apply length_mapM in Hm. rewrite Hm.
  destruct cs as [|x [|y [|z cs]]]; try discriminate. done.
Qed.

Lemma parse_point_error s e : parse_point s = Raise e -> e = ValueError.
Proof.
  unfold parse_point.
  destruct (mapM float_of_str (split_ws s)) as [cs|]; cbn; [|by intros [= <-]].
  destruct cs as [|x [|y [|z cs]]]; try discriminate; by intros [= <-].
Qed.

(** X18: a line of a block that does not hold exactly two tokens, a blank
    line for one, makes the reading of the block raise [ValueError]. *)
Theorem malformed_data_line_aborts_block i lines ls out line :
  In line (block_lines lines) ->
  length (split_ws (strip line)) <> 2 ->
  read_block i lines ls out = Raise ValueError.
Proof.
  revert ls out. induction lines as [|line0 lines IH]; intros ls out; simpl; [done|].
  destruct (String.eqb (strip line0) "&"); [done|].
  intros [->|Hin] Hlen.
  - destruct (parse_point (strip line)) as [xy|e] eqn:Hp.
    + apply parse_point_two_tokens in Hp. done.
    + apply parse_point_error in Hp as ->. done.
  - destruct (parse_point (strip line0)) as [[x y]|e] eqn:Hp; cbn [bind].
    + by apply IH.
    + by apply parse_point_error in Hp as ->.
Qed.

End Aborts.

Lemma incomplete_directive_aborts_load_witness :
  exists e,
    init (H := RefLib.ref_lib)
      (open_file "run.agr" (unlines lf ["@title T"; "@s0 legend"; "0 1"; "&"]))
      None [] = Raise e.
Proof.
  apply (incomplete_directive_aborts_load (H := RefLib.ref_lib)
           (open_file "run.agr" (unlines lf ["@title T"; "@s0 legend"; "0 1"; "&"]))
           None [] ("@s0 legend" +:+ lf)).
  - vm_compute. right. left. reflexivity.
  - right. vm_compute. reflexivity.
Defined.

Lemma malformed_data_line_aborts_block_witness :
  read_block (H := RefLib.ref_lib) 0 ["0 1" +:+ lf; lf; "&" +:+ lf] [new_layer "A"] []
  = Raise ValueError.
Proof.
  apply (malformed_data_line_aborts_block (H := RefLib.ref_lib) 0
           ["0 1" +:+ lf; lf; "&" +:+ lf] [new_layer "A"] [] lf).
  - vm_compute. right. left. reflexivity.
  - vm_compute. discriminate.
Defined.

(** ** A NaN among the x values *)

Lemma SFeqb_refl (f : spec_float) : f <> S754_nan -> SFeqb f f = true.
Proof.
  unfold SFeqb, SFcompare.
  destruct f as [s|s| |s m e]; try done.
  - by destruct s.
  - intros _. rewrite Z.compare_refl.
    assert (Hm : Pos.compare_cont Eq m m = Eq) by apply Pos.compare_cont_refl.
    rewrite Hm. by destruct s.
Qed.

Lemma SFeqb_nan_r (f g : spec_float) : g = S754_nan -> SFeqb f g = false.
Proof. intros ->. unfold SFeqb, SFcompare. by destruct f. Qed.

Lemma eqb_nan_r (k x : float) :
  PrimFloat.eqb x x = false -> PrimFloat.eqb k x = false.
Proof.
  rewrite !FloatAxioms.eqb_spec. intros Hx. apply SFeqb_nan_r.
  destruct (Prim2SF x) as [s|s| |s m e] eqn:E; try done;
    rewrite SFeqb_refl in Hx; discriminate.
Qed.

(** X19: an x that differs from itself (a NaN) is never found in the
    dictionary of a layer: storing under it always appends a new point, and
    it is still not found afterwards, so it is never reported as a
    duplicate. *)
Theorem nan_key_is_always_new (x y : float) (d : odict) :
  PrimFloat.eqb x x = false ->
  od_contains x d = false
  /\ od_set x y d = d ++ [(x, y)]
  /\ od_contains x (od_set x y d) = false.
Proof.
  intros Hx.
  assert (Hall : forall d', od_contains x d' = false).
  { intros d'. induction d' as [|[k v] d' IH]; simpl; [done|].
    by rewrite (eqb_nan_r k x Hx), IH. }
  split; [apply Hall|]. split; [apply od_set_absent, Hall|apply Hall].
Qed.

Lemma nan_key_is_always_new_witness :
  od_contains nan [(nan, 1%float)] = false
  /\ od_set nan 2 [(nan, 1%float)] = [(nan, 1%float)] ++ [(nan, 2%float)]
  /\ od_contains nan (od_set nan 2 [(nan, 1%float)]) = false.
Proof. apply (nan_key_is_always_new nan 2 [(nan, 1%float)]). reflexivity. Defined.

(** ** The local [plot] of [main] *)

Section Unbound.
Context `{PyLib}.

Lemma run_directive_exn line p out e :
  run_directive line p out = Raise e -> e <> UnboundLocalError.
Proof.
  unfold run_directive, item, of_option, bind. intros Hr.
  repeat case_match; simplify_eq; done.
Qed.

Lemma header_loop_exn lines position p out e :
  parse_plot_configs_loop lines position p out = Raise e -> e <> UnboundLocalError.
Proof.
  revert position p out.
  induction lines as [|line lines IH]; intros position p out; simpl; [discriminate|].
  destruct (startswith "@" line); [|discriminate].
  destruct (run_directive line p out) as [[p1 out1]|e1] eqn:Hd; cbn [bind].
  - apply IH.
  - intros [= <-]. by eapply run_directive_exn.
Qed.

Lemma read_block_exn i lines ls out e :
  read_block i lines ls out = Raise e -> e <> UnboundLocalError.
Proof.
  revert ls out. induction lines as [|line lines IH]; intros ls out; simpl;
    [discriminate|].
  destruct (String.eqb (strip line) "&"); [discriminate|].
  destruct (parse_point (strip line)) as [[x y]|e1] eqn:Hp; cbn [bind].
  - apply IH.
  - intros [= <-]. by apply parse_point_error in Hp as ->.
Qed.

Lemma coordinates_loop_exn refs lines ls out e :
  parse_coordinates_loop refs lines ls out = Raise e -> e <> UnboundLocalError.
Proof.
  revert lines ls out. induction refs as [|i refs IH]; intros lines ls out; simpl;
    [discriminate|].
  destruct (read_block i lines ls out) as [[[lines1 ls1] out1]|e1] eqn:Hb;
    cbn [bind].
  - apply IH.
  - intros [= <-]. by eapply read_block_exn.
Qed.

Lemma init_exn fin restrict out e :
  init fin restrict out = Raise e -> e <> UnboundLocalError.
Proof.
  unfold init, load, parse_plot_configs, parse_coordinates.
  destruct (parse_plot_configs_loop (pending fin) 0 (mkPlot EmptyString [] restrict) out)
    as [[[position p0] out0]|e0] eqn:Hh; cbn [bind].
  - match goal with
    | |- context [parse_coordinates_loop ?r ?l ?ls ?o] =>
        destruct (parse_coordinates_loop r l ls o) as [[[lines1 ls1] out1]|e1] eqn:Hc
    end; cbn [bind]; [discriminate|].
    intros [= <-]. by eapply coordinates_loop_exn.
  - intros [= <-]. by eapply header_loop_exn.
Qed.

(** X15: [main] never reads its local [plot] while it is unbound: whatever a
    run of [main] raises, it is not [UnboundLocalError]. [plot.savefig] is
    reached only under an export and [plot.show] only without
    [--do_not_plot]; in both cases [plot] was called and returned a figure. *)
Theorem main_never_reads_plot_unbound (matplotlib : bool) (args : Args) (e : exn) :
  main matplotlib args = Raise e -> e <> UnboundLocalError.
Proof.
  unfold main.
  destruct (init (input_file args) (arg_restrict_to args) []) as [[[f p] out]|e0]
    eqn:Hinit; cbn [bind]; [|intros [= <-]; by eapply init_exn].
  intros Hmain. exfalso.
  set (q := match arg_title args with
            | Some (String _ _ as t) => set_title t p
            | _ => p
            end) in *.
  destruct (negb (do_not_plot args) || is_set (export args)) eqn:Hwant;
    rewrite ?Hwant in Hmain.
  - destruct (plot_returns_labelled_figure matplotlib q (scale args)
                (Some (axis_x args, axis_y args)) (Some (legend_position args))
                (arg_labels args) out) as ([fig out1] & Hp & _).
    rewrite Hp in Hmain. cbn [bind] in Hmain.
    destruct fig as [fg|]; [|discriminate].
    destruct (export_and_show_ok args q (Some fg) out1) as (w & Hw & _).
    { discriminate. }
    congruence.
  - apply orb_false_iff in Hwant as [Hd He]. apply negb_false_iff in Hd.
    destruct (export_and_show_ok args q None out) as (w & Hw & _).
    { intros _. split; [done|]. left. by destruct (export args). }
    congruence.
Qed.

End Unbound.

Lemma main_never_reads_plot_unbound_witness :
  main (H := RefLib.ref_lib) true crlf_args = Raise ValueError
  /\ ValueError <> UnboundLocalError.
Proof.
  assert (Hrun : main (H := RefLib.ref_lib) true crlf_args = Raise ValueError)
    by (vm_compute; reflexivity).
  split; [exact Hrun|].
  exact (main_never_reads_plot_unbound (H := RefLib.ref_lib) true crlf_args
           ValueError Hrun).
Defined.
